(** * The typos corrector of style-analyzer: a shallow embedding

    Source: [lookout/style/typos_checker/typos_correction/corrector.py],
    class [TyposCorrector].  The corrector wires three collaborators, a
    candidates generator, a corrections finder and a candidates ranker,
    and exposes [train], [suggest] and [suggest_by_batches].

    Layout of the development:
    - [Py]: the fragment of Python and pandas the corrector relies on
      (exceptions, insertion-ordered dictionaries, [range], label slices);
    - the data model of the candidates table and of the suggestions;
    - [Components]: the interface of the collaborators;
    - the corrector itself, in a state-and-exception monad over the
      object, the files it touches and the trace of collaborator calls;
    - the behaviour the specification attaches to the collaborators
      ([Spec], [SpecLaws], [RoundTripLaws]);
    - views of a run: what a method returns, traces and writes, as
      functions;
    - [Scenario]: a closed instantiation of the collaborators;
    - the lemmas that relate the methods to their views, and the
      properties, first those the corrector decides alone, then those that
      rest on the specification of the collaborators;
    - the edges of the batch loop, of loading and of the file entry
      points, and what a whole session keeps;
    - [Runs], [MoreRuns]: the corrector on concrete records. *)

From Stdlib Require Import QArith Ascii String.
From stdpp Require Import base list strings gmap sorting.

Local Open Scope Z_scope.

(** ** Python and pandas *)

Module Py.

(** Exceptions raised on the paths of the corrector. *)
Inductive exn : Type :=
  | AttributeError (attr : string)
  | KeyError (key : string)
  | IndexError
  | TypeError
  | ValueError
  | FileNotFoundError (path : string)
  | UnicodeDecodeError
  | UnpicklingError
  | ModelNotTrainedError.

Global Instance exn_eq_dec : EqDecision exn.
Proof. solve_decision. Defined.

Definition result (A : Type) : Type := exn + A.

Definition rbind {A B} (r : result A) (k : A → result B) : result B :=
  match r with inl e => inl e | inr a => k a end.

Definition rmap {A B} (f : A → B) (r : result A) : result B :=
  match r with inl e => inl e | inr a => inr (f a) end.

(** *** Dictionaries

    A Python [dict] keeps its keys unique and in insertion order;
    assigning to a key that is present keeps the key's position. *)

Section assoc.
Context {K V : Type} `{EqDecision K}.

Fixpoint assoc_get (k : K) (l : list (K * V)) : option V :=
  match l with
  | [] => None
  | (k', v) :: l' => if decide (k = k') then Some v else assoc_get k l'
  end.

Fixpoint assoc_set (k : K) (v : V) (l : list (K * V)) : list (K * V) :=
  match l with
  | [] => [(k, v)]
  | (k', v') :: l' =>
      if decide (k = k') then (k, v) :: l' else (k', v') :: assoc_set k v l'
  end.

Definition assoc_of_items (l : list (K * V)) : list (K * V) :=
  foldl (λ d kv, assoc_set kv.1 kv.2 d) [] l.

Lemma assoc_set_keys k v l :
  (assoc_set k v l).*1 = if decide (k ∈ l.*1) then l.*1 else l.*1 ++ [k].
Proof.
  induction l as [|[k' v'] l IH]; csimpl; [done|].
  destruct (decide (k = k')) as [->|Hne]; csimpl.
  - rewrite decide_True; [done|]. by left.
  - rewrite IH. destruct (decide (k ∈ l.*1)) as [Hin|Hin].
    + rewrite decide_True; [done|]. by right.
    + rewrite decide_False; [done|]. by intros [?|?]%elem_of_cons.
Qed.

Lemma assoc_set_NoDup k v l : NoDup l.*1 → NoDup (assoc_set k v l).*1.
Proof.
  intros Hl. rewrite assoc_set_keys. case_decide; [done|].
  apply NoDup_app. split_and!; [done| |apply NoDup_singleton].
  intros x Hx ->%list_elem_of_singleton. done.
Qed.

Lemma assoc_of_items_snoc l k v :
  assoc_of_items (l ++ [(k, v)]) = assoc_set k v (assoc_of_items l).
Proof. unfold assoc_of_items. by rewrite foldl_app. Qed.

Lemma assoc_of_items_NoDup l : NoDup (assoc_of_items l).*1.
Proof.
  induction l as [|[k v] l IH] using rev_ind; [apply NoDup_nil_2|].
  rewrite assoc_of_items_snoc. by apply assoc_set_NoDup.
Qed.

Record pydict : Type := PyDict {
  items : list (K * V);
  items_wf : bool_decide (NoDup items.*1)
}.

Definition keys (d : pydict) : list K := (items d).*1.

Definition dict_get (k : K) (d : pydict) : option V := assoc_get k (items d).

(** [dict(pairs)] *)
Definition dict_of_items (l : list (K * V)) : pydict :=
  PyDict (assoc_of_items l) (bool_decide_pack _ (assoc_of_items_NoDup l)).

End assoc.

Global Arguments pydict K V {_} : assert.

(** *** [range(start, stop, step)] *)

Definition range_len (start stop step : Z) : Z :=
  if 0 <? step then
    if start <? stop then (stop - start + step - 1) `div` step else 0
  else
    if stop <? start then (start - stop - step - 1) `div` (- step) else 0.

Definition py_range (start stop step : Z) : result (list Z) :=
  if step =? 0 then inl ValueError
  else inr ((λ k : nat, start + Z.of_nat k * step)
              <$> seq 0 (Z.to_nat (range_len start stop step))).

(** *** Data frames

    A frame is its rows in positional order; each row carries its index
    label.  The columns are those the corrector documents: [typo], and
    [identifier] and [token_split] where present. *)

Record df_row : Type := DfRow {
  idx : Z;
  typo : string;
  identifier : option string;
  token_split : option string
}.

Global Instance df_row_eq_dec : EqDecision df_row.
Proof. solve_decision. Defined.

Abbreviation DataFrame := (list df_row) (only parsing).

(** [len(df)] *)
Definition df_len (df : DataFrame) : Z := Z.of_nat (length df).

(** [df.index[i]]: positional, a negative position counts from the end. *)
Definition index_at (df : DataFrame) (i : Z) : result Z :=
  let j := if i <? 0 then i + df_len df else i in
  if 0 <=? j then
    match df !! Z.to_nat j with
    | Some r => inr (idx r)
    | None => inl IndexError
    end
  else inl IndexError.

(** The positions [start, stop) a label stands for as the bound of a label
    slice: pandas looks the label up, and accepts its occurrences when they
    form one contiguous run; otherwise it raises [KeyError] ("Cannot get
    slice bound for non-unique label").  A label that does not occur is a
    [KeyError] too for an index that is not sorted. *)
Definition label_run (l : Z) (df : DataFrame) : result (nat * nat) :=
  match list_find (λ r, idx r = l) df with
  | None => inl (KeyError "label")
  | Some (start, _) =>
      let n := length (filter (λ r, idx r = l) df) in
      if bool_decide (Forall (λ r, idx r = l) (take n (drop start df)))
      then inr (start, (start + n)%nat)
      else inl (KeyError "non-unique label")
  end.

(** [df.loc[a:b, :]]: a label slice, both ends included. *)
Definition loc_slice (df : DataFrame) (a b : Z) : result DataFrame :=
  rbind (label_run a df) (λ lo,
  rbind (label_run b df) (λ hi,
  inr (take (hi.2 - lo.1) (drop lo.1 df)))).

End Py.
Export Py.

(** ** Data model

    The candidates table, its two projections and the suggestions, as the
    specification describes them (the module [candidates_generation] is
    not part of the sources at hand). *)

(** Modelled from the spec: the feature vector of a candidate (section
    4.3), a fixed set of numeric columns. *)
Record features : Type := Features {
  f_edit_distance : Q;
  f_frequency : Q;
  f_log_frequency : Q;
  f_rank_percentile : Q;
  f_cosine : Q;
  f_by_neighbors : bool;
  f_by_distance : bool;
  f_length_diff : Z
}.

(** Modelled from the spec: a row of the candidates table, "a (typo,
    candidate-token) pair" with its features. *)
Record cand_row : Type := CandRow {
  c_typo : string;
  c_candidate : string;
  c_features : features
}.

Abbreviation Candidates := (list cand_row) (only parsing).
Abbreviation Tokens := (list (string * string)) (only parsing).
Abbreviation FeatureMatrix := (list features) (only parsing).

(** Modelled from the spec: [get_candidates_tokens], the (typo, candidate)
    column pair of the table. *)
Definition get_candidates_tokens (candidates : Candidates) : Tokens :=
  (λ r, (c_typo r, c_candidate r)) <$> candidates.

(** Modelled from the spec: [get_candidates_features], the feature matrix
    of the table, one row per candidate. *)
Definition get_candidates_features (candidates : Candidates) : FeatureMatrix :=
  c_features <$> candidates.

(** A suggestion: (candidate, score) pairs. *)
Abbreviation Sugg := (list (string * Q)) (only parsing).
Abbreviation Suggestions := (pydict string Sugg) (only parsing).

(** Values of the booster parameters. *)
Inductive param : Type :=
  | PInt (z : Z)
  | PFloat (q : Q)
  | PStr (s : string)
  | PList (l : list string).

(** A node of the finder's tree once [_load_tree] has put the live
    embedding model next to the finder's own blobs. *)
Inductive fnode (B F : Type) : Type :=
  | FBlob (b : B)
  | FModel (ft : F).
Global Arguments FBlob {_ _} _.
Global Arguments FModel {_ _} _.

(** ** The collaborators

    [CorrectionsFinder], [CandidatesGenerator] and [CandidatesRanker] live
    in modules that are not among the sources; gensim's [FastText] and
    [pickle] are libraries.  The corrector is written against their
    interface.  Modelled from the spec: the Token Index is "immutable
    after construction" and generation has "read-only access" to it
    (sections 4.2 and 5), so generation returns a table and changes neither
    generator nor finder; [fit] and the two [_load_tree] replace the state
    of their object. *)
Class Components : Type := {
  FastText : Type;
  Blob : Type;
  Finder : Type;
  Generator : Type;
  Ranker : Type;
  RankerTree : Type;
  (* gensim, pickle *)
  load_fasttext_format : string → FastText;
  pickle_dumps : FastText → Blob;
  pickle_loads : Blob → result FastText;
  (* CorrectionsFinder *)
  CorrectionsFinder : Finder;
  finder_construct :
    Finder → string → string → FastText → Z → Z → Z → Z → Finder;
  finder_generate_tree : Finder → gmap string (fnode Blob FastText);
  finder_load_tree :
    Finder → gmap string (fnode Blob FastText) → result Finder;
  (* CandidatesGenerator *)
  CandidatesGenerator : FastText → option string → Generator;
  generate_candidates :
    Generator → DataFrame → Finder → Z → option string → Candidates;
  (* CandidatesRanker *)
  CandidatesRanker : Ranker;
  set_boost_params : Ranker → Z → Z → gmap string param → Ranker;
  ranker_fit : Ranker → DataFrame → Tokens → FeatureMatrix → result Ranker;
  ranker_rank :
    Ranker → Tokens → FeatureMatrix → option nat → bool → result Suggestions;
  ranker_generate_tree : Ranker → RankerTree;
  ranker_load_tree : Ranker → RankerTree → result Ranker
}.

(** ** The corrector *)

(** Class attributes of [TyposCorrector]. *)
Definition DEFAULT_THREADS_NUMBER : Z := 16.
Definition DEFAULT_RADIUS : Z := 4.
Definition DEFAULT_MAX_DISTANCE : Z := 3.
Definition DEFAULT_NEIGHBORS_NUMBER : Z := 20.
Definition DEFAULT_TAKEN_FOR_DISTANCE : Z := 10.
Definition DEFAULT_TRAIN_ROUNDS : Z := 4000.
Definition DEFAULT_EARLY_STOPPING : Z := 200.
Definition DEFAULT_BOOST_PARAM : gmap string param :=
  list_to_map
    [ ("max_depth", PInt 6);
      ("eta", PFloat 0.03%Q);
      ("min_child_weight", PInt 2);
      ("silent", PInt 1);
      ("objective", PStr "binary:logistic");
      ("nthread", PInt 16);
      ("subsample", PFloat 0.5%Q);
      ("colsample_bytree", PFloat 0.5%Q);
      ("alpha", PInt 1);
      ("eval_metric", PList ["auc"; "error"]) ].

(** Defaults of the keyword arguments of [suggest], [suggest_file] and
    [suggest_by_batches]. *)
Definition suggest_n_candidates_default : option nat := Some 3%nat.
Definition suggest_by_batches_n_candidates_default : option nat := None.
Definition return_all_default : bool := true.
Definition batch_size_default : Z := 2048.

(** Calls the corrector makes to its collaborators, and entries into
    [suggest], in the order they happen. *)
Inductive call : Type :=
  | CallSuggest (typos : DataFrame) (candidates : option Candidates)
      (save_candidates_file : option string)
      (n_candidates : option nat) (return_all : bool)
  | CallGenerate (typos : DataFrame) (threads_number : Z)
      (save_candidates_file : option string)
  | CallGetTokens (candidates : Candidates)
  | CallGetFeatures (candidates : Candidates)
  | CallFit (typos : DataFrame) (tokens : Tokens) (feats : FeatureMatrix)
  | CallRank (tokens : Tokens) (feats : FeatureMatrix)
      (n_candidates : option nat) (return_all : bool).

Definition is_generate (c : call) : bool :=
  match c with CallGenerate _ _ _ => true | _ => false end.

Section corrector.
Context `{C : Components}.

(** The attributes of the object.  [__init__] sets the first four;
    [fasttext] and [generator] exist only once [create_model] or
    [_load_tree] has run, and reading them before that raises
    [AttributeError]. *)
Record TyposCorrector : Type := Corrector {
  nn_file : option string;
  threads_number : Z;
  finder : Finder;
  ranker : Ranker;
  fasttext : option FastText;
  generator : option Generator
}.

Definition with_finder (f : Finder) (c : TyposCorrector) : TyposCorrector :=
  Corrector (nn_file c) (threads_number c) f (ranker c) (fasttext c)
    (generator c).
Definition with_ranker (r : Ranker) (c : TyposCorrector) : TyposCorrector :=
  Corrector (nn_file c) (threads_number c) (finder c) r (fasttext c)
    (generator c).
Definition with_fasttext (ft : FastText) (c : TyposCorrector) : TyposCorrector :=
  Corrector (nn_file c) (threads_number c) (finder c) (ranker c) (Some ft)
    (generator c).
Definition with_generator (g : Generator) (c : TyposCorrector) : TyposCorrector :=
  Corrector (nn_file c) (threads_number c) (finder c) (ranker c) (fasttext c)
    (Some g).

(** The tree a model is persisted as. *)
Inductive tree_node : Type :=
  | TBytes (b : Blob)
  | TFinder (d : gmap string (fnode Blob FastText))
  | TRanker (t : RankerTree).

(** What a path of the file system holds: a table of typos written as
    CSV, or a pickled table of candidates. *)
Inductive file : Type :=
  | CsvFile (df : DataFrame)
  | PickleFile (cs : Candidates).

(** What a method runs against: the object, the file system and the
    trace. *)
Record World : Type := MkWorld {
  self : TyposCorrector;
  files : gmap string file;
  calls : list call
}.

Definition M (A : Type) : Type := World → result A * World.

Global Instance M_ret : MRet M := λ A a w, (inr a, w).
Global Instance M_bind : MBind M := λ A B k m w,
  match m w with
  | (inl e, w') => (inl e, w')
  | (inr a, w') => k a w'
  end.

Definition raise {A} (e : exn) : M A := λ w, (inl e, w).
Definition lift {A} (r : result A) : M A := λ w, (r, w).
Definition get_self : M TyposCorrector := λ w, (inr (self w), w).
Definition modify_self (f : TyposCorrector → TyposCorrector) : M unit :=
  λ w, (inr (), MkWorld (f (self w)) (files w) (calls w)).
Definition trace (c : call) : M unit :=
  λ w, (inr (), MkWorld (self w) (files w) (calls w ++ [c])).

(** [self.name], for an attribute that may not have been set. *)
Definition attr {A} (name : string) (o : option A) : M A :=
  match o with Some a => mret a | None => raise (AttributeError name) end.

(** [pandas.read_csv(path, index_col=0)] and [pandas.read_pickle(path)],
    on the one file system: a path that holds nothing raises
    [FileNotFoundError]; a pickle is not text that the CSV reader decodes,
    and a CSV is not a pickle.  Writing a pickle replaces whatever the path
    held. *)
Definition read_csv (path : string) : M DataFrame :=
  λ w, (match files w !! path with
        | Some (CsvFile df) => inr df
        | Some (PickleFile _) => inl UnicodeDecodeError
        | None => inl (FileNotFoundError path)
        end, w).
Definition read_pickle (path : string) : M Candidates :=
  λ w, (match files w !! path with
        | Some (PickleFile cs) => inr cs
        | Some (CsvFile _) => inl UnpicklingError
        | None => inl (FileNotFoundError path)
        end, w).
Definition write_pickle (path : string) (cs : Candidates) : M unit :=
  λ w, (inr (), MkWorld (self w) (<[path := PickleFile cs]> (files w))
                  (calls w)).

(** A [for] loop that collects what its body yields. *)
Fixpoint for_each {A B} (l : list A) (body : A → M B) : M (list B) :=
  match l with
  | [] => mret []
  | a :: l' => b ← body a; bs ← for_each l' body; mret (b :: bs)
  end.

(** *** Calls to the collaborators *)

(** Modelled from the spec: [generate_candidates] "optionally persists the
    generated candidate set to external storage" when it is given a path
    (section 4.5). *)
Definition do_generate_candidates (g : Generator) (typos : DataFrame)
    (f : Finder) (threads : Z) (save_candidates_file : option string)
    : M Candidates :=
  trace (CallGenerate typos threads save_candidates_file);;
  let candidates := generate_candidates g typos f threads save_candidates_file in
  match save_candidates_file with
  | Some path => write_pickle path candidates
  | None => mret ()
  end;;
  mret candidates.

Definition do_get_candidates_tokens (candidates : Candidates) : M Tokens :=
  trace (CallGetTokens candidates);; mret (get_candidates_tokens candidates).

Definition do_get_candidates_features (candidates : Candidates)
    : M FeatureMatrix :=
  trace (CallGetFeatures candidates);; mret (get_candidates_features candidates).

Definition do_fit (typos : DataFrame) (tokens : Tokens) (feats : FeatureMatrix)
    : M unit :=
  trace (CallFit typos tokens feats);;
  o ← get_self;
  r ← lift (ranker_fit (ranker o) typos tokens feats);
  modify_self (with_ranker r).

Definition do_rank (tokens : Tokens) (feats : FeatureMatrix)
    (n_candidates : option nat) (return_all : bool) : M Suggestions :=
  trace (CallRank tokens feats n_candidates return_all);;
  o ← get_self;
  lift (ranker_rank (ranker o) tokens feats n_candidates return_all).

(** *** Methods of [TyposCorrector] *)

Definition set_ranker_params (train_rounds early_stopping : Z)
    (boost_param : gmap string param) (c : TyposCorrector) : TyposCorrector :=
  with_ranker (set_boost_params (ranker c) train_rounds early_stopping
                 boost_param) c.

Definition __init__ (threads_number : Z) (nn_file : option string)
    : TyposCorrector :=
  set_ranker_params DEFAULT_TRAIN_ROUNDS DEFAULT_EARLY_STOPPING
    DEFAULT_BOOST_PARAM
    (Corrector nn_file threads_number CorrectionsFinder CandidatesRanker
       None None).

Definition create_model (vocabulary_file frequencies_file emb_file : string)
    (neighbors_number taken_for_distance max_distance radius : Z) : M unit :=
  let ft := load_fasttext_format emb_file in
  modify_self (with_fasttext ft);;
  o ← get_self;
  modify_self (with_generator (CandidatesGenerator ft (nn_file o)));;
  o ← get_self;
  modify_self (with_finder
    (finder_construct (finder o) vocabulary_file frequencies_file ft
       neighbors_number taken_for_distance max_distance radius)).

Definition _generate_tree : M (gmap string tree_node) :=
  o ← get_self;
  ft ← attr "fasttext" (fasttext o);
  mret (list_to_map
          [ ("fasttext", TBytes (pickle_dumps ft));
            ("finder", TFinder (finder_generate_tree (finder o)));
            ("ranker", TRanker (ranker_generate_tree (ranker o))) ]).

(** [tree[key]] *)
Definition tree_item (tree : gmap string tree_node) (key : string)
    : M tree_node :=
  match tree !! key with
  | Some n => mret n
  | None => raise (KeyError key)
  end.

Definition _load_tree (tree : gmap string tree_node) : M unit :=
  n ← tree_item tree "fasttext";
  b ← match n with TBytes b => mret b | _ => raise TypeError end;
  ft ← lift (pickle_loads b);
  modify_self (with_fasttext ft);;
  o ← get_self;
  modify_self (with_generator (CandidatesGenerator ft (nn_file o)));;
  n ← tree_item tree "finder";
  finder_dict ← match n with TFinder d => mret d | _ => raise TypeError end;
  let finder_dict := <["fasttext" := FModel ft]> finder_dict in
  o ← get_self;
  f ← lift (finder_load_tree (finder o) finder_dict);
  modify_self (with_finder f);;
  n ← tree_item tree "ranker";
  t ← match n with TRanker t => mret t | _ => raise TypeError end;
  o ← get_self;
  r ← lift (ranker_load_tree (ranker o) t);
  modify_self (with_ranker r).

Definition train (typos : DataFrame) (candidates : option Candidates)
    (save_candidates_file : option string) : M unit :=
  candidates ←
    match candidates with
    | None =>
        o ← get_self;
        g ← attr "generator" (generator o);
        do_generate_candidates g typos (finder o) (threads_number o)
          save_candidates_file
    | Some candidates => mret candidates
    end;
  tokens ← do_get_candidates_tokens candidates;
  feats ← do_get_candidates_features candidates;
  do_fit typos tokens feats.

Definition train_on_file (typos_file : string) (candidates_file : option string)
    (save_candidates_file : option string) : M unit :=
  typos ← read_csv typos_file;
  candidates ←
    match candidates_file with
    | Some path => cs ← read_pickle path; mret (Some cs)
    | None => mret None
    end;
  train typos candidates save_candidates_file.

Definition suggest (typos : DataFrame) (candidates : option Candidates)
    (save_candidates_file : option string) (n_candidates : option nat)
    (return_all : bool) : M Suggestions :=
  trace (CallSuggest typos candidates save_candidates_file n_candidates
           return_all);;
  candidates ←
    match candidates with
    | None =>
        o ← get_self;
        g ← attr "generator" (generator o);
        do_generate_candidates g typos (finder o) (threads_number o)
          save_candidates_file
    | Some candidates => mret candidates
    end;
  tokens ← do_get_candidates_tokens candidates;
  feats ← do_get_candidates_features candidates;
  do_rank tokens feats n_candidates return_all.

Definition suggest_file (typos_file : string) (candidates_file : option string)
    (save_candidates_file : option string) (n_candidates : option nat)
    (return_all : bool) : M Suggestions :=
  typos ← read_csv typos_file;
  candidates ←
    match candidates_file with
    | Some path => cs ← read_pickle path; mret (Some cs)
    | None => mret None
    end;
  suggest typos candidates save_candidates_file n_candidates return_all.

(** The window of one turn of the loop of [suggest_by_batches]: the rows
    between the labels at positions [i] and [min(len - 1, i + batch_size - 1)]. *)
Definition batch_window (test_df : DataFrame) (batch_size i : Z)
    : result DataFrame :=
  rbind (index_at test_df i) (λ lo,
  rbind (index_at test_df (Z.min (df_len test_df - 1) (i + batch_size - 1)))
    (λ hi, loc_slice test_df lo hi)).

(** The body of the loop: [suggest] on the window; the loop keeps the items
    of what comes back. *)
Definition batch_turn (test_df : DataFrame) (n_candidates : option nat)
    (return_all : bool) (batch_size i : Z) : M (list (string * Sugg)) :=
  batch ← lift (batch_window test_df batch_size i);
  suggestions ← suggest batch None None n_candidates return_all;
  mret (items suggestions).

Definition suggest_by_batches (test_df : DataFrame) (n_candidates : option nat)
    (return_all : bool) (batch_size : Z) : M Suggestions :=
  starts ← lift (py_range 0 (df_len test_df) batch_size);
  all_suggestions ←
    for_each starts (batch_turn test_df n_candidates return_all batch_size);
  mret (dict_of_items (concat all_suggestions)).

(** The two entry points called with their keyword defaults. *)
Definition suggest_defaults (typos : DataFrame) : M Suggestions :=
  suggest typos None None suggest_n_candidates_default return_all_default.

Definition suggest_by_batches_defaults (test_df : DataFrame) (batch_size : Z)
    : M Suggestions :=
  suggest_by_batches test_df suggest_by_batches_n_candidates_default
    return_all_default batch_size.

(** Running a method on an object, with nothing on disk and an empty
    trace. *)
Definition world_of (c : TyposCorrector) : World := MkWorld c ∅ [].

End corrector.

(** ** The collaborators as the specification describes them *)

Module Spec.

(** A candidate with the score the ensemble gave it and its frequency. *)
Record scored : Type := Scored {
  s_typo : string;
  s_candidate : string;
  s_score : Q;
  s_frequency : Q
}.

(** Keys in the order they are first seen. *)
Fixpoint first_seen (l : list string) : list string :=
  match l with
  | [] => []
  | x :: l' => x :: filter (λ y, y ≠ x) (first_seen l')
  end.

(** Modelled from the spec: the order of a suggestion, "descending score",
    "ties broken by candidate frequency descending, then lexicographic
    token order" (section 4.4). *)
Definition ranks_before (a b : scored) : bool :=
  match (s_score b ?= s_score a)%Q with
  | Lt => true
  | Gt => false
  | Eq =>
      match (s_frequency b ?= s_frequency a)%Q with
      | Lt => true
      | Gt => false
      | Eq => String.leb (s_candidate a) (s_candidate b)
      end
  end.

(** [n_candidates] bounds the length of a suggestion; [None] bounds
    nothing. *)
Definition top {A} (n_candidates : option nat) (l : list A) : list A :=
  match n_candidates with
  | Some n => take n l
  | None => l
  end.

Definition group_of (t : string) (rows : list scored) : list scored :=
  merge_sort (λ a b, Is_true (ranks_before a b))
    (filter (λ r, s_typo r = t) rows).

Definition suggestion_of (t : string) (rows : list scored)
    (n_candidates : option nat) (return_all : bool)
    : option (string * Sugg) :=
  let group := group_of t rows in
  if negb return_all
     && bool_decide (s_candidate <$> head group = Some t)
  then None
  else Some (t, top n_candidates ((λ r, (s_candidate r, s_score r)) <$> group)).

(** Modelled from the spec: [CandidatesRanker.rank] "scores every
    candidate, groups by typo, and returns the top [n_candidates] per typo
    sorted by descending score.  When [return_all] is false, typos whose top
    candidate is identical to the typo itself are omitted from the result"
    (section 4.4).  The function below starts from the scored rows. *)
Definition rank_items (rows : list scored) (n_candidates : option nat)
    (return_all : bool) : list (string * Sugg) :=
  omap (λ t, suggestion_of t rows n_candidates return_all)
    (first_seen (s_typo <$> rows)).

Definition rank_scored (rows : list scored) (n_candidates : option nat)
    (return_all : bool) : Suggestions :=
  dict_of_items (rank_items rows n_candidates return_all).

End Spec.

(** What the specification adds to the interface: whether a ranker holds a
    trained ensemble, the score that ensemble gives a feature vector, the
    candidates one record yields, and the embedding model a finder was
    built on. *)
Class SpecModel `{C : Components} : Type := {
  trained : Ranker → bool;
  predict : Ranker → features → Q;
  typo_candidates : Generator → Finder → df_row → list (string * features);
  finder_fasttext : Finder → option FastText
}.

Section spec_laws.
Context `{S : SpecModel}.

Definition score_rows (r : Ranker) (tokens : Tokens) (feats : FeatureMatrix)
    : list Spec.scored :=
  zip_with (λ tc f, Spec.Scored tc.1 tc.2 (predict r f) (f_frequency f))
    tokens feats.

(** The rows one record contributes to the candidates table. *)
Definition record_candidates (g : Generator) (f : Finder) (row : df_row)
    : Candidates :=
  (λ cf, CandRow (typo row) cf.1 cf.2) <$> typo_candidates g f row.

(** Modelled from the spec: generation treats the records independently
    ("each unit of work (one typo's neighbor + edit-distance search) is
    independent", section 5), [rank] is as in section 4.4 once a model has
    been trained or loaded, and reports [ModelNotTrainedError] before that
    (section 7). *)
Class SpecLaws : Prop := {
  generate_per_record g typos f threads save :
    generate_candidates g typos f threads save
    = typos ≫= record_candidates g f;
  rank_trained r tokens feats n return_all :
    trained r = true →
    ranker_rank r tokens feats n return_all
    = inr (Spec.rank_scored (score_rows r tokens feats) n return_all);
  rank_untrained r tokens feats n return_all :
    trained r = false →
    ranker_rank r tokens feats n return_all = inl ModelNotTrainedError;
  ranker_new_untrained : trained CandidatesRanker = false;
  set_boost_params_trained r rounds stop params :
    trained (set_boost_params r rounds stop params) = trained r
}.

(** Modelled from the spec: every blob of the tree is "restorable to an
    identical live system" (section 6). *)
Class RoundTripLaws : Prop := {
  pickle_roundtrip ft : pickle_loads (pickle_dumps ft) = inr ft;
  finder_roundtrip f0 f ft :
    finder_fasttext f = Some ft →
    finder_load_tree f0 (<["fasttext" := FModel ft]> (finder_generate_tree f))
    = inr f;
  ranker_roundtrip r0 r : ranker_load_tree r0 (ranker_generate_tree r) = inr r;
  construct_fasttext f v fr ft k t m r :
    finder_fasttext (finder_construct f v fr ft k t m r) = Some ft;
  load_tree_fasttext f0 d f ft :
    finder_load_tree f0 d = inr f →
    d !! "fasttext" = Some (FModel ft) →
    finder_fasttext f = Some ft
}.

(** The embedding model, the generator and the finder of an object agree:
    the generator is the one its constructor builds from the model and
    [nn_file], and the finder was built on the same model. *)
Definition consistent (c : TyposCorrector) : Prop :=
  match fasttext c with
  | Some ft =>
      generator c = Some (CandidatesGenerator ft (nn_file c))
      ∧ finder_fasttext (finder c) = Some ft
  | None => generator c = None
  end.

End spec_laws.

(** ** Views of a run

    What a method returns, leaves in the object, traces and writes, as
    functions of the object and the arguments.  The lemmas further down
    relate them to the methods. *)

Section views.
Context `{C : Components}.

(** The world after some more calls have been traced. *)
Definition traced (w : World) (cs : list call) : World :=
  MkWorld (self w) (files w) (calls w ++ cs).

(** The candidates a call works on, or the exception their generation
    raises. *)
Definition sourced (c : TyposCorrector) (typos : DataFrame)
    (candidates : option Candidates) (save : option string)
    : result Candidates :=
  match candidates with
  | Some cands => inr cands
  | None =>
      match generator c with
      | Some g =>
          inr (generate_candidates g typos (finder c) (threads_number c) save)
      | None => inl (AttributeError "generator")
      end
  end.

(** What [suggest] returns, as a function of the object and the
    arguments. *)
Definition suggest_out (c : TyposCorrector) (typos : DataFrame)
    (candidates : option Candidates) (save : option string)
    (n_candidates : option nat) (return_all : bool) : result Suggestions :=
  rbind (sourced c typos candidates save) (λ cands,
    ranker_rank (ranker c) (get_candidates_tokens cands)
      (get_candidates_features cands) n_candidates return_all).

(** The calls [suggest] traces. *)
Definition suggest_trace (c : TyposCorrector) (typos : DataFrame)
    (candidates : option Candidates) (save : option string)
    (n_candidates : option nat) (return_all : bool) : list call :=
  CallSuggest typos candidates save n_candidates return_all ::
  match sourced c typos candidates save with
  | inl _ => []
  | inr cands =>
      (match candidates with
       | None => [CallGenerate typos (threads_number c) save]
       | Some _ => []
       end)
      ++ [ CallGetTokens cands; CallGetFeatures cands;
           CallRank (get_candidates_tokens cands)
             (get_candidates_features cands) n_candidates return_all ]
  end.

(** What [train] traces. *)
Definition train_trace (c : TyposCorrector) (typos : DataFrame)
    (candidates : option Candidates) (save : option string) : list call :=
  match sourced c typos candidates save with
  | inl _ => []
  | inr cands =>
      (match candidates with
       | None => [CallGenerate typos (threads_number c) save]
       | Some _ => []
       end)
      ++ [ CallGetTokens cands; CallGetFeatures cands;
           CallFit typos (get_candidates_tokens cands)
             (get_candidates_features cands) ]
  end.

(** The file a call writes: the generated candidates, when it generated
    some and was given a path. *)
Definition written (c : TyposCorrector) (typos : DataFrame)
    (candidates : option Candidates) (save : option string)
    (fs : gmap string file) : gmap string file :=
  match candidates, sourced c typos candidates save, save with
  | None, inr cands, Some path => <[path := PickleFile cands]> fs
  | _, _, _ => fs
  end.

(** What [train] leaves in the object: the ranker [fit] returned. *)
Definition train_self (c : TyposCorrector) (typos : DataFrame)
    (candidates : option Candidates) (save : option string)
    : result unit * TyposCorrector :=
  match sourced c typos candidates save with
  | inl e => (inl e, c)
  | inr cands =>
      match ranker_fit (ranker c) typos (get_candidates_tokens cands)
              (get_candidates_features cands) with
      | inl e => (inl e, c)
      | inr r => (inr (), with_ranker r c)
      end
  end.

(** A loop over [l] whose body may raise. *)
Fixpoint collect {A B} (l : list A) (body : A → result B) : result (list B) :=
  match l with
  | [] => inr []
  | a :: l' =>
      rbind (body a) (λ b, rbind (collect l' body) (λ bs, inr (b :: bs)))
  end.

(** What the batches return, one dictionary per turn of the loop. *)
Definition batch_results (c : TyposCorrector) (test_df : DataFrame)
    (n_candidates : option nat) (return_all : bool) (batch_size : Z)
    : result (list Suggestions) :=
  rbind (py_range 0 (df_len test_df) batch_size) (λ starts,
    collect starts (λ i,
      rbind (batch_window test_df batch_size i) (λ batch,
        suggest_out c batch None None n_candidates return_all))).

(** What [suggest_by_batches] returns, as a function of the object and the
    arguments. *)
Definition suggest_by_batches_out (c : TyposCorrector) (test_df : DataFrame)
    (n_candidates : option nat) (return_all : bool) (batch_size : Z)
    : result Suggestions :=
  rbind (batch_results c test_df n_candidates return_all batch_size) (λ rs,
    inr (dict_of_items (concat (items <$> rs)))).

(** A traced call that carries [n_candidates] carries this one. *)
Definition receives (n : option nat) (k : call) : Prop :=
  match k with
  | CallSuggest _ _ _ n' _ => n' = n
  | CallRank _ _ n' _ => n' = n
  | _ => True
  end.

(** The calls a method added to the trace of [w]. *)
Definition new_calls (w w' : World) : list call :=
  drop (length (calls w)) (calls w').


(** Objects on which neither [train] nor [_load_tree] has run. *)
Inductive never_trained : TyposCorrector → Prop :=
  | nt_init threads nn : never_trained (__init__ threads nn)
  | nt_set_ranker_params c rounds stop params :
      never_trained c → never_trained (set_ranker_params rounds stop params c)
  | nt_create_model c v fr e k t m r :
      never_trained c →
      never_trained (self (create_model v fr e k t m r (world_of c)).2).

End views.

Section spec_views.
Context `{S : SpecModel}.

(** The scored rows of the candidates generated for a frame. *)
Definition scored_rows (c : TyposCorrector) (g : Generator) (df : DataFrame)
    : list Spec.scored :=
  (λ cr, Spec.Scored (c_typo cr) (c_candidate cr)
           (predict (ranker c) (c_features cr)) (f_frequency (c_features cr)))
    <$> (df ≫= record_candidates g (finder c)).

End spec_views.

(** ** Views of the loop and of a session *)

(** The frames the loop of [suggest_by_batches] cuts out of a frame, one
    per turn, or the exception the first window that fails raises. *)
Definition batch_frames (test_df : DataFrame) (batch_size : Z)
    : result (list DataFrame) :=
  rbind (py_range 0 (df_len test_df) batch_size) (λ starts,
    collect starts (batch_window test_df batch_size)).

(** The candidate a dictionary of suggestions puts first for a typo. *)
Definition top_candidate (d : Suggestions) (k : string) : option string :=
  match dict_get k d with
  | Some ((candidate, _) :: _) => Some candidate
  | _ => None
  end.

(** The frames [suggest] was entered with, read off a trace. *)
Definition suggested_frames (cs : list call) : list DataFrame :=
  omap (λ k, match k with
             | CallSuggest typos _ _ _ _ => Some typos
             | _ => None
             end) cs.

(** A traced call that takes neither a candidates table nor a path to save
    one to. *)
Definition uncached (k : call) : Prop :=
  match k with
  | CallSuggest _ candidates save _ _ => candidates = None ∧ save = None
  | CallGenerate _ _ save => save = None
  | _ => True
  end.

Section sessions.
Context `{C : Components}.

(** The settings the object was constructed with, and its generator the
    one its constructor builds from the current model and [nn_file]. *)
Definition paired (nn : option string) (threads : Z) (c : TyposCorrector)
    : Prop :=
  nn_file c = nn
  ∧ threads_number c = threads
  ∧ generator c = (λ ft, CandidatesGenerator ft nn) <$> fasttext c.

(** A call of a method, with its arguments. *)
Inductive op : Type :=
  | OpSetRankerParams (train_rounds early_stopping : Z)
      (boost_param : gmap string param)
  | OpCreateModel (vocabulary_file frequencies_file emb_file : string)
      (neighbors_number taken_for_distance max_distance radius : Z)
  | OpGenerateTree
  | OpLoadTree (tree : gmap string tree_node)
  | OpTrain (typos : DataFrame) (candidates : option Candidates)
      (save_candidates_file : option string)
  | OpTrainOnFile (typos_file : string) (candidates_file : option string)
      (save_candidates_file : option string)
  | OpSuggest (typos : DataFrame) (candidates : option Candidates)
      (save_candidates_file : option string) (n_candidates : option nat)
      (return_all : bool)
  | OpSuggestFile (typos_file : string) (candidates_file : option string)
      (save_candidates_file : option string) (n_candidates : option nat)
      (return_all : bool)
  | OpSuggestByBatches (test_df : DataFrame) (n_candidates : option nat)
      (return_all : bool) (batch_size : Z).

(** The world a call leaves, whether it returns or raises. *)
Definition run_op (o : op) (w : World) : World :=
  match o with
  | OpSetRankerParams rounds stop params =>
      MkWorld (set_ranker_params rounds stop params (self w)) (files w)
        (calls w)
  | OpCreateModel v fr e k t m r => (create_model v fr e k t m r w).2
  | OpGenerateTree => (_generate_tree w).2
  | OpLoadTree tree => (_load_tree tree w).2
  | OpTrain typos candidates save => (train typos candidates save w).2
  | OpTrainOnFile typos_file candidates_file save =>
      (train_on_file typos_file candidates_file save w).2
  | OpSuggest typos candidates save n return_all =>
      (suggest typos candidates save n return_all w).2
  | OpSuggestFile typos_file candidates_file save n return_all =>
      (suggest_file typos_file candidates_file save n return_all w).2
  | OpSuggestByBatches test_df n return_all batch_size =>
      (suggest_by_batches test_df n return_all batch_size w).2
  end.

(** A session: calls made one after the other on the same object. *)
Definition run_ops (os : list op) (w : World) : World :=
  foldl (λ w o, run_op o w) w os.

End sessions.

(** ** A closed instantiation

    A small vocabulary, a table of nearest neighbours standing for the
    pre-trained embedding model, the two candidate strategies of section
    4.2, and a fixed monotone score standing for the boosted ensemble.  It
    serves to run the corrector on concrete records. *)

Module Scenario.

Definition chars (s : string) : list ascii := String.list_ascii_of_string s.
Definition len (s : string) : Z := Z.of_nat (String.length s).

(** Edit distance, one row of the table per character of the source. *)
Fixpoint lev_step (a : ascii) (t : list ascii) (prev : list nat)
    (diag left : nat) : list nat :=
  match t, prev with
  | b :: t', up :: prev' =>
      let v := Nat.min (Nat.min (up + 1) (left + 1))
                 (diag + if decide (a = b) then 0 else 1)%nat in
      v :: lev_step a t' prev' up v
  | _, _ => []
  end.

Definition lev_row (t : list ascii) (prev : list nat) (a : ascii) : list nat :=
  match prev with
  | d0 :: rest => S d0 :: lev_step a t rest d0 (S d0)
  | [] => []
  end.

Definition edit_distance (s t : string) : nat :=
  default 0%nat
    (last (foldl (lev_row (chars t)) (seq 0 (S (length (chars t)))) (chars s))).

(** The embedding model: for each token it covers, its nearest tokens with
    their similarity, most similar first. *)
Definition embedding : Type := list (string * list (string * Q)).

Inductive blob : Type :=
  | BModel (m : embedding)
  | BVocab (v : list (string * Z))
  | BParams (neighbors_number taken_for_distance max_distance radius : Z).

Record finder_state : Type := FinderState {
  fs_vocab : list (string * Z);
  fs_neighbors_number : Z;
  fs_taken_for_distance : Z;
  fs_max_distance : Z;
  fs_radius : Z;
  fs_model : option embedding
}.

Record generator_state : Type := GeneratorState {
  gs_model : embedding;
  gs_nn_file : option string
}.

Inductive booster : Type := Fitted.

Record ranker_state : Type := RankerState {
  rs_rounds : Z;
  rs_stop : Z;
  rs_params : gmap string param;
  rs_booster : option booster
}.

(** The static input files. *)
Definition vocabulary_on_disk (vocabulary_file frequencies_file : string)
    : list (string * Z) :=
  if decide (vocabulary_file = "vocabulary.csv"
             ∧ frequencies_file = "frequencies.csv")
  then [ ("length", 100); ("width", 50); ("eight", 30); ("lengths", 20);
         ("lent", 5) ]
  else [].

Definition embedding_on_disk (emb_file : string) : embedding :=
  if decide (emb_file = "emb.bin")
  then [ ("lenght", [("length", 0.9%Q); ("lengths", 0.8%Q)]);
         ("widht", [("width", 0.9%Q)]);
         ("width", [("length", 0.4%Q)]) ]
  else [].

Definition more_frequent (a b : string * Z) : Prop := b.2 ≤ a.2.

Global Instance more_frequent_dec : RelDecision more_frequent :=
  λ a b, decide (b.2 ≤ a.2).

Definition top_frequent (n : Z) (vocab : list (string * Z)) : list string :=
  (take (Z.to_nat n) (merge_sort more_frequent vocab)).*1.

Definition neighbours (m : embedding) (f : finder_state) (t : string)
    : list (string * Q) :=
  take (Z.to_nat (fs_neighbors_number f))
    (filter (λ nq, nq.1 ∈ (fs_vocab f).*1 ∧ nq.1 ≠ t)
       (default [] (assoc_get t m))).

Definition within_distance (f : finder_state) (t : string) : list string :=
  filter (λ c, Z.abs (len c - len t) ≤ fs_radius f
               ∧ Z.of_nat (edit_distance t c) ≤ fs_max_distance f)
    (top_frequent (fs_taken_for_distance f) (fs_vocab f)).

Definition features_of (m : embedding) (f : finder_state) (t c : string)
    : features :=
  let freq := default 0 (assoc_get c (fs_vocab f)) in
  {| f_edit_distance :=
       Qred (Z.of_nat (edit_distance t c) # Z.to_pos (len t `max` len c));
     f_frequency := inject_Z freq;
     f_log_frequency := inject_Z (Z.log2 freq);
     f_rank_percentile :=
       Qred (Z.of_nat (length (filter (λ v, v.2 ≤ freq) (fs_vocab f)))
             # Z.to_pos (Z.of_nat (length (fs_vocab f))));
     f_cosine := default 0%Q (assoc_get c (neighbours m f t));
     f_by_neighbors := bool_decide (c ∈ (neighbours m f t).*1);
     f_by_distance := bool_decide (c ∈ within_distance f t);
     f_length_diff := len t - len c |}.

(** The candidates of one typo: both strategies, merged and deduplicated. *)
Definition candidates_of (g : generator_state) (f : finder_state)
    (row : df_row) : list (string * features) :=
  let t := typo row in
  (λ c, (c, features_of (gs_model g) f t c))
    <$> Spec.first_seen ((neighbours (gs_model g) f t).*1 ++ within_distance f t).

(** The score, in [0, 1]: the closer and the more frequent the candidate,
    the higher. *)
Definition score (fv : features) : Q :=
  Qred ((1 - f_edit_distance fv) * (1 + f_rank_percentile fv) / 2)%Q.

Definition load_tree (d : gmap string (fnode blob embedding))
    : result finder_state :=
  match d !! "vocab", d !! "params", d !! "fasttext" with
  | Some (FBlob (BVocab v)), Some (FBlob (BParams k t m r)), Some (FModel ft) =>
      inr (FinderState v k t m r (Some ft))
  | _, _, _ => inl (KeyError "finder")
  end.

Global Instance components : Components := {|
  FastText := embedding;
  Blob := blob;
  Finder := finder_state;
  Generator := generator_state;
  Ranker := ranker_state;
  RankerTree := ranker_state;
  load_fasttext_format := embedding_on_disk;
  pickle_dumps := BModel;
  pickle_loads b := match b with BModel m => inr m | _ => inl TypeError end;
  CorrectionsFinder := FinderState [] 0 0 0 0 None;
  finder_construct _ vocabulary_file frequencies_file ft k t m r :=
    FinderState (vocabulary_on_disk vocabulary_file frequencies_file) k t m r
      (Some ft);
  finder_generate_tree f :=
    list_to_map
      [ ("vocab", FBlob (BVocab (fs_vocab f)));
        ("params", FBlob (BParams (fs_neighbors_number f)
                            (fs_taken_for_distance f) (fs_max_distance f)
                            (fs_radius f))) ];
  finder_load_tree _ d := load_tree d;
  CandidatesGenerator := GeneratorState;
  generate_candidates g typos f _ _ :=
    typos ≫= λ row,
      (λ cf, CandRow (typo row) cf.1 cf.2) <$> candidates_of g f row;
  CandidatesRanker := RankerState 0 0 ∅ None;
  set_boost_params r rounds stop params :=
    RankerState rounds stop params (rs_booster r);
  ranker_fit r _ _ _ :=
    inr (RankerState (rs_rounds r) (rs_stop r) (rs_params r) (Some Fitted));
  ranker_rank r tokens feats n return_all :=
    match rs_booster r with
    | Some Fitted =>
        inr (Spec.rank_scored
               (zip_with (λ tc fv, Spec.Scored tc.1 tc.2 (score fv)
                                     (f_frequency fv)) tokens feats)
               n return_all)
    | None => inl ModelNotTrainedError
    end;
  ranker_generate_tree r := r;
  ranker_load_tree _ t := inr t
|}.

Global Instance spec_model : SpecModel := {|
  trained r := bool_decide (is_Some (rs_booster r));
  predict _ := score;
  typo_candidates := candidates_of;
  finder_fasttext := fs_model
|}.

(** The records the examples run on. *)
Definition row (i : Z) (t : string) : df_row := DfRow i t None None.

Definition training_set : DataFrame :=
  [ DfRow 0 "lenght" (Some "lenghtOfList") None;
    DfRow 1 "widht" (Some "widhtOfBox") None ].

(** A corrector built, given a model and trained. *)
Definition fresh : TyposCorrector := __init__ DEFAULT_THREADS_NUMBER None.

Definition built : TyposCorrector :=
  self (create_model "vocabulary.csv" "frequencies.csv" "emb.bin"
          DEFAULT_NEIGHBORS_NUMBER DEFAULT_TAKEN_FOR_DISTANCE
          DEFAULT_MAX_DISTANCE DEFAULT_RADIUS (world_of fresh)).2.

Definition trained_corrector : TyposCorrector :=
  self (train training_set None None (world_of built)).2.

Definition sample : DataFrame :=
  [ row 0 "lenght"; row 1 "widht"; row 2 "zzzzzzzzzzzz"; row 3 "width" ].

Definition ready : World := world_of trained_corrector.

(** The generator of the built and of the trained corrector. *)
Definition the_generator : generator_state :=
  GeneratorState (embedding_on_disk "emb.bin") None.

(** Frames with labels that repeat: in one run, scattered, and one label
    for all the rows. *)
Definition run_rows : DataFrame :=
  [ row 0 "lenght"; row 0 "widht"; row 1 "width" ].


Definition constant_rows : DataFrame :=
  [ row 7 "lenght"; row 7 "widht"; row 7 "width" ].

(** The trained corrector with the records in a file. *)
Definition ready_with_file : World :=
  MkWorld trained_corrector {["typos.csv" := CsvFile sample]} [].

(** A tree that lacks the finder and the ranker. *)
Definition bare_tree : gmap string (@tree_node components) :=
  {["fasttext" := TBytes (BModel (embedding_on_disk "emb.bin"))]}.


End Scenario.

(** ** The instance with a neighbours file

    The same collaborators, but for the generator: it reads the nearest
    neighbours of a token from the file it was constructed with.  The file
    "nn.bin" holds those of the embedding model; a generator constructed
    without a file, or with another one, finds no neighbour and is left
    with the edit-distance strategy. *)

Module NeighboursFile.

Import Scenario.









End NeighboursFile.

(** ** Facts about dictionaries *)

Section dict_facts.
Context {K V : Type} `{EqDecision K}.

Implicit Types (k : K) (v : V) (l d : list (K * V)).

Lemma assoc_get_set k k' v l :
  assoc_get k' (assoc_set k v l) =
    if decide (k' = k) then Some v else assoc_get k' l.
Proof.
  induction l as [|[k0 v0] l IH]; simpl.
  - by repeat case_decide.
  - destruct (decide (k = k0)) as [->|Hne]; simpl.
    + repeat case_decide; congruence.
    + rewrite IH. repeat case_decide; congruence.
Qed.

Lemma assoc_get_None k l : assoc_get k l = None ↔ k ∉ l.*1.
Proof.
  induction l as [|[k0 v0] l IH]; simpl.
  - split; [intros _; apply not_elem_of_nil|done].
  - case_decide as Hk; subst.
    + split; [done|]. intros []. by left.
    + rewrite IH, not_elem_of_cons. split; [by intros|by intros [_ ?]].
Qed.

Lemma assoc_get_Some_elem k v l : assoc_get k l = Some v → (k, v) ∈ l.
Proof.
  induction l as [|[k0 v0] l IH]; simpl; [done|].
  case_decide; subst.
  - intros [= ->]. by left.
  - intros. right. auto.
Qed.

Lemma assoc_get_app k l1 l2 :
  assoc_get k (l1 ++ l2) =
    match assoc_get k l1 with Some v => Some v | None => assoc_get k l2 end.
Proof.
  induction l1 as [|[k0 v0] l1 IH]; simpl; [done|]. by case_decide.
Qed.

(** The value a key ends up with is the one of its last occurrence. *)
Lemma assoc_get_of_items k l :
  assoc_get k (assoc_of_items l) = assoc_get k (reverse l).
Proof.
  induction l as [|[k0 v0] l IH] using rev_ind; [done|].
  rewrite assoc_of_items_snoc, assoc_get_set, reverse_snoc. simpl.
  by rewrite IH.
Qed.

Lemma assoc_set_fresh k v l : k ∉ l.*1 → assoc_set k v l = l ++ [(k, v)].
Proof.
  induction l as [|[k0 v0] l IH]; simpl; [done|].
  intros [Hne Hin]%not_elem_of_cons. rewrite decide_False by done.
  by rewrite IH.
Qed.

Lemma assoc_of_items_app_fresh d l :
  NoDup (d ++ l).*1 →
  foldl (λ d kv, assoc_set kv.1 kv.2 d) d l = d ++ l.
Proof.
  revert d. induction l as [|[k v] l IH]; intros d Hnd; simpl.
  - by rewrite app_nil_r.
  - rewrite assoc_set_fresh.
    + rewrite IH; rewrite <- (assoc (++)); [done|]. done.
    + rewrite fmap_app in Hnd. apply NoDup_app in Hnd as (_ & Hd & _).
      intros Hin. apply (Hd k Hin). simpl. by left.
Qed.

(** Items with pairwise distinct keys are kept as they are. *)
Lemma assoc_of_items_id l : NoDup l.*1 → assoc_of_items l = l.
Proof. intros. by apply (assoc_of_items_app_fresh []). Qed.

Lemma assoc_get_Some_NoDup k v l :
  NoDup l.*1 → (k, v) ∈ l → assoc_get k l = Some v.
Proof.
  induction l as [|[k0 v0] l IH]; csimpl.
  - by intros _ ?%elem_of_nil.
  - intros [Hk0 Hnd]%NoDup_cons [[= -> ->]|Hin]%elem_of_cons.
    + by rewrite decide_True.
    + rewrite decide_False; [by apply IH|].
      intros ->. apply Hk0. apply list_elem_of_fmap. by exists (k0, v).
Qed.

Lemma assoc_get_reverse k l :
  NoDup l.*1 → assoc_get k (reverse l) = assoc_get k l.
Proof.
  intros Hnd. destruct (assoc_get k l) as [v|] eqn:Hget.
  - apply assoc_get_Some_NoDup.
    + by rewrite fmap_reverse, reverse_Permutation.
    + by apply elem_of_reverse, assoc_get_Some_elem.
  - apply assoc_get_None. apply assoc_get_None in Hget.
    by rewrite fmap_reverse, elem_of_reverse.
Qed.

(** Among dictionaries whose items are concatenated and rebuilt into
    one, the last one that holds a key decides its value. *)
Lemma assoc_get_of_items_concat (ds : list (list (K * V))) i d k :
  ds !! i = Some d →
  NoDup d.*1 →
  k ∈ d.*1 →
  (∀ j d', (i < j)%nat → ds !! j = Some d' → k ∉ d'.*1) →
  assoc_get k (assoc_of_items (concat ds)) = assoc_get k d.
Proof.
  intros Hi Hnd Hk Hlater.
  rewrite <- (take_drop_middle ds i d Hi), concat_app, concat_cons.
  rewrite assoc_get_of_items, !reverse_app, <- !(assoc (++)).
  rewrite !assoc_get_app.
  assert (assoc_get k (reverse (concat (drop (S i) ds))) = None) as ->.
  { apply assoc_get_None. rewrite fmap_reverse, elem_of_reverse.
    intros (kv & -> & Hkv)%list_elem_of_fmap.
    apply list_elem_of_In, in_concat in Hkv as (d' & Hd' & Hkv).
    apply list_elem_of_In, list_elem_of_lookup in Hd' as [j Hj].
    apply list_elem_of_In in Hkv.
    rewrite lookup_drop in Hj.
    apply (Hlater (S i + j)%nat d'); [lia|done|].
    apply list_elem_of_fmap. by exists kv. }
  rewrite assoc_get_reverse by done.
  destruct (assoc_get k d) eqn:Hget; [done|].
  by apply assoc_get_None in Hget.
Qed.

Lemma pydict_eq (d1 d2 : pydict K V) : items d1 = items d2 → d1 = d2.
Proof.
  destruct d1 as [l1 H1], d2 as [l2 H2]; simpl. intros ->.
  f_equal. apply proof_irrel.
Qed.

Lemma items_NoDup (d : pydict K V) : NoDup (items d).*1.
Proof. destruct d as [l Hl]; simpl. by apply bool_decide_unpack in Hl. Qed.

Lemma dict_of_items_items (d : pydict K V) : dict_of_items (items d) = d.
Proof.
  apply pydict_eq. simpl. apply assoc_of_items_id, items_NoDup.
Qed.

End dict_facts.

(** ** What a call does, step by step *)

(** Unfolds the monad and the traced calls. *)
Ltac run :=
  repeat (progress (unfold do_rank, do_fit, do_get_candidates_tokens,
                      do_get_candidates_features, do_generate_candidates,
                      attr, trace, get_self, modify_self, lift, raise,
                      write_pickle, mbind, M_bind, mret, M_ret; simpl)).

Section execution.
Context `{C : Components}.

Implicit Types (w : World) (c : TyposCorrector).

Lemma suggest_run typos candidates save n return_all w :
  suggest typos candidates save n return_all w
  = (suggest_out (self w) typos candidates save n return_all,
     MkWorld (self w) (written (self w) typos candidates save (files w))
       (calls w ++ suggest_trace (self w) typos candidates save n return_all)).
Proof.
  destruct w as [c fs cs].
  unfold suggest, suggest_out, suggest_trace, written, sourced.
  destruct candidates as [cands|]; run.
  - by rewrite <- !(assoc (++)).
  - destruct (generator c) as [g|]; run; [|done].
    destruct save as [path|]; run; by rewrite <- !(assoc (++)).
Qed.

Lemma train_run typos candidates save w :
  train typos candidates save w
  = ((train_self (self w) typos candidates save).1,
     MkWorld (train_self (self w) typos candidates save).2
       (written (self w) typos candidates save (files w))
       (calls w ++ train_trace (self w) typos candidates save)).
Proof.
  destruct w as [c fs cs].
  unfold train, train_self, train_trace, written, sourced.
  destruct candidates as [cands|]; run.
  - destruct (ranker_fit _ _ _ _); simpl; by rewrite <- !app_assoc.
  - destruct (generator c) as [g|]; run; [|by rewrite app_nil_r].
    destruct save as [path|]; run; destruct (ranker_fit _ _ _ _); simpl;
      by rewrite <- !app_assoc.
Qed.

Lemma suggest_self typos candidates save n return_all w :
  self (suggest typos candidates save n return_all w).2 = self w.
Proof. by rewrite suggest_run. Qed.

Lemma suggest_fst typos candidates save n return_all w :
  (suggest typos candidates save n return_all w).1
  = suggest_out (self w) typos candidates save n return_all.
Proof. by rewrite suggest_run. Qed.

End execution.

(** ** The loop of [suggest_by_batches] *)

Section batches.
Context `{C : Components}.

Implicit Types (w : World) (c : TyposCorrector).

Lemma suggest_trace_receives c typos candidates save n return_all :
  Forall (receives n) (suggest_trace c typos candidates save n return_all).
Proof.
  unfold suggest_trace. constructor; [done|].
  destruct (sourced _ _ _ _) as [e|cands]; [constructor|].
  apply Forall_app. split; [destruct candidates; repeat constructor|].
  repeat constructor.
Qed.

Lemma written_nothing c typos fs : written c typos None None fs = fs.
Proof. unfold written, sourced. by destruct (generator c). Qed.

Lemma batch_turn_run test_df n return_all batch_size i w :
  batch_turn test_df n return_all batch_size i w
  = match batch_window test_df batch_size i with
    | inl e => (inl e, w)
    | inr batch =>
        (rmap items (suggest_out (self w) batch None None n return_all),
         MkWorld (self w) (files w)
           (calls w ++ suggest_trace (self w) batch None None n return_all))
    end.
Proof.
  unfold batch_turn. unfold mbind at 1, M_bind at 1, lift at 1.
  destruct (batch_window test_df batch_size i) as [e|batch]; [done|].
  simpl. unfold mbind, M_bind. rewrite suggest_run, written_nothing.
  by destruct (suggest_out _ _ _ _ _ _).
Qed.

Lemma for_each_cons {A B} (a : A) (l : list A) (body : A → M B) w :
  for_each (a :: l) body w
  = match body a w with
    | (inl e, w') => (inl e, w')
    | (inr b, w') =>
        match for_each l body w' with
        | (inl e, w'') => (inl e, w'')
        | (inr bs, w'') => (inr (b :: bs), w'')
        end
    end.
Proof.
  cbn [for_each]. unfold mbind, M_bind.
  destruct (body a w) as [[e|b] w']; [done|].
  by destruct (for_each l body w') as [[e|bs] w''].
Qed.

Lemma loop_run test_df n return_all batch_size starts w :
  let out :=
    for_each starts (batch_turn test_df n return_all batch_size) w in
  out.1 = rmap (fmap items)
            (collect starts (λ i,
               rbind (batch_window test_df batch_size i) (λ batch,
                 suggest_out (self w) batch None None n return_all)))
  ∧ self out.2 = self w
  ∧ files out.2 = files w
  ∧ ∃ new, calls out.2 = calls w ++ new ∧ Forall (receives n) new.
Proof.
  simpl. revert w. induction starts as [|i starts IH]; intros w.
  - simpl. split_and!; try done. exists []. by rewrite app_nil_r.
  - rewrite for_each_cons, batch_turn_run. cbn [collect].
    destruct (batch_window test_df batch_size i) as [e|batch]; simpl.
    { split_and!; try done. exists []. by rewrite app_nil_r. }
    destruct (suggest_out (self w) batch None None n return_all)
      as [e|d] eqn:Hd; simpl.
    { split_and!; try done. eexists. split; [done|].
      apply suggest_trace_receives. }
    match goal with |- context [for_each starts ?b ?w'] =>
      destruct (IH w') as (Hout & Hself & Hfs & new & Hcalls & Hnew);
      destruct (for_each starts b w') as [[e|rs] w'']
    end; simpl in *;
      destruct (collect starts _) as [e'|rs']; simplify_eq/=;
      (split_and!; try done; eexists; rewrite Hcalls, <- app_assoc;
       split; [done|]; apply Forall_app; split; [|done];
       apply suggest_trace_receives).
Qed.

Lemma suggest_by_batches_run test_df n return_all batch_size w :
  suggest_by_batches test_df n return_all batch_size w
  = match py_range 0 (df_len test_df) batch_size with
    | inl e => (inl e, w)
    | inr starts =>
        match for_each starts (batch_turn test_df n return_all batch_size) w
        with
        | (inl e, w') => (inl e, w')
        | (inr all_suggestions, w') =>
            (inr (dict_of_items (concat all_suggestions)), w')
        end
    end.
Proof.
  unfold suggest_by_batches, mbind, M_bind, lift.
  destruct (py_range 0 (df_len test_df) batch_size) as [e|starts]; [done|].
  by destruct (for_each starts _ w) as [[e|rs] w'].
Qed.

Lemma suggest_by_batches_fst test_df n return_all batch_size w :
  (suggest_by_batches test_df n return_all batch_size w).1
  = suggest_by_batches_out (self w) test_df n return_all batch_size.
Proof.
  rewrite suggest_by_batches_run.
  unfold suggest_by_batches_out, batch_results.
  destruct (py_range 0 (df_len test_df) batch_size) as [e|starts]; [done|].
  simpl.
  destruct (loop_run test_df n return_all batch_size starts w) as (Hout & _).
  destruct (for_each starts _ w) as [[e|rs] w']; simpl in *;
    destruct (collect starts _) as [e'|rs']; by simplify_eq/=.
Qed.

Lemma suggest_by_batches_frame test_df n return_all batch_size w :
  let w' := (suggest_by_batches test_df n return_all batch_size w).2 in
  self w' = self w
  ∧ files w' = files w
  ∧ ∃ new, calls w' = calls w ++ new ∧ Forall (receives n) new.
Proof.
  simpl. rewrite suggest_by_batches_run.
  destruct (py_range 0 (df_len test_df) batch_size) as [e|starts].
  { simpl. split_and!; try done. exists []. by rewrite app_nil_r. }
  destruct (loop_run test_df n return_all batch_size starts w)
    as (_ & Hloop).
  by destruct (for_each starts _ w) as [[e|rs] w'].
Qed.

End batches.

(** ** Properties decided by the corrector alone *)

Section corrector_properties.
Context `{C : Components}.

Implicit Types (w : World) (c : TyposCorrector).

Lemma new_calls_app w w' new : calls w' = calls w ++ new → new_calls w w' = new.
Proof. unfold new_calls. intros ->. by rewrite drop_app_length. Qed.

(** The output of [suggest] depends on the world through the object
    only. *)
Lemma suggest_same_object typos candidates save n return_all w w' :
  self w' = self w →
  (suggest typos candidates save n return_all w').1
  = (suggest typos candidates save n return_all w).1.
Proof. intros Hself. by rewrite !suggest_fst, Hself. Qed.

(** The file entry points read the typos, and the candidates when a cache
    file is named, and go on as [suggest] and [train] do. *)
Lemma suggest_file_reads_cache typos_file path save n return_all w typos
    cands :
  files w !! typos_file = Some (CsvFile typos) →
  files w !! path = Some (PickleFile cands) →
  suggest_file typos_file (Some path) save n return_all w
  = suggest typos (Some cands) save n return_all w.
Proof.
  intros Hcsv Hpk. unfold suggest_file, read_csv, read_pickle.
  unfold mbind, M_bind, mret, M_ret. by rewrite Hcsv, Hpk.
Qed.

Lemma train_on_file_reads_cache typos_file path save w typos cands :
  files w !! typos_file = Some (CsvFile typos) →
  files w !! path = Some (PickleFile cands) →
  train_on_file typos_file (Some path) save w
  = train typos (Some cands) save w.
Proof.
  intros Hcsv Hpk. unfold train_on_file, read_csv, read_pickle.
  unfold mbind, M_bind, mret, M_ret. by rewrite Hcsv, Hpk.
Qed.

(** C4. When a candidates table is passed to [train] or [suggest], no call
    to [generate_candidates] is made and no file is written: the table goes
    straight to the two projections and to [fit] or [rank].  When none is
    passed and the object has a generator, the candidates are generated
    from the typos first, and it is the generated table that is projected
    and fitted or ranked. *)
Theorem precomputed_candidates_skip_generation typos save n return_all w :
  (∀ cands,
     let out := suggest typos (Some cands) save n return_all w in
     Forall (λ k, is_generate k = false) (new_calls w out.2)
     ∧ files out.2 = files w
     ∧ out.1 = ranker_rank (ranker (self w)) (get_candidates_tokens cands)
                 (get_candidates_features cands) n return_all)
  ∧ (∀ cands,
       let out := train typos (Some cands) save w in
       new_calls w out.2
       = [ CallGetTokens cands; CallGetFeatures cands;
           CallFit typos (get_candidates_tokens cands)
             (get_candidates_features cands) ]
       ∧ files out.2 = files w)
  ∧ (∀ g, generator (self w) = Some g →
       let cands :=
         generate_candidates g typos (finder (self w))
           (threads_number (self w)) save in
       new_calls w (suggest typos None save n return_all w).2
       = [ CallSuggest typos None save n return_all;
           CallGenerate typos (threads_number (self w)) save;
           CallGetTokens cands; CallGetFeatures cands;
           CallRank (get_candidates_tokens cands)
             (get_candidates_features cands) n return_all ]
       ∧ new_calls w (train typos None save w).2
         = [ CallGenerate typos (threads_number (self w)) save;
             CallGetTokens cands; CallGetFeatures cands;
             CallFit typos (get_candidates_tokens cands)
               (get_candidates_features cands) ]).
Proof.
  split_and!.
  - intros cands. cbv zeta. rewrite suggest_run. simpl.
    erewrite new_calls_app by done. split_and!; [|done..].
    unfold suggest_trace. simpl. by repeat constructor.
  - intros cands. cbv zeta. rewrite train_run. simpl.
    by erewrite new_calls_app by done.
  - intros g Hg. cbv zeta. rewrite suggest_run, train_run. simpl.
    erewrite !new_calls_app by done.
    unfold suggest_trace, train_trace, sourced. by rewrite Hg.
Qed.

(** C6. Two calls of [suggest] in a row with the same arguments return the
    same thing: the first call leaves the object as it was, and what it
    adds to the trace and to the files has no part in the second. *)
Theorem suggest_twice_same_output typos candidates save n return_all w :
  let first := suggest typos candidates save n return_all w in
  let second := suggest typos candidates save n return_all first.2 in
  second.1 = first.1.
Proof. cbv zeta. apply suggest_same_object, suggest_self. Qed.

(** C7. [train] changes no attribute of the object but the ranker, which
    becomes what [fit] returned; it reads no file and writes at most the
    file of generated candidates it was given a path for.  When it raises,
    the ranker is unchanged too. *)
Theorem train_mutates_only_ranker typos candidates save w :
  let out := train typos candidates save w in
  nn_file (self out.2) = nn_file (self w)
  ∧ threads_number (self out.2) = threads_number (self w)
  ∧ finder (self out.2) = finder (self w)
  ∧ fasttext (self out.2) = fasttext (self w)
  ∧ generator (self out.2) = generator (self w)
  ∧ (∀ path df, files out.2 !! path = Some (CsvFile df) →
       files w !! path = Some (CsvFile df))
  ∧ (∀ path, save ≠ Some path → files out.2 !! path = files w !! path)
  ∧ (is_Some candidates → files out.2 = files w)
  ∧ match out.1 with
    | inl _ => self out.2 = self w
    | inr _ =>
        ∃ cands,
          sourced (self w) typos candidates save = inr cands
          ∧ ranker_fit (ranker (self w)) typos (get_candidates_tokens cands)
              (get_candidates_features cands)
            = inr (ranker (self out.2))
    end.
Proof.
  cbv zeta. rewrite train_run. unfold train_self, written.
  destruct (sourced (self w) typos candidates save) as [e|cands] eqn:Hsrc;
    [|destruct (ranker_fit (ranker (self w)) typos
                  (get_candidates_tokens cands)
                  (get_candidates_features cands)) as [e|r] eqn:Hfit];
    cbn [fst snd self files nn_file threads_number finder
         fasttext generator ranker with_ranker];
    split_and!; try done;
    try (by intros [cs ->]);
    try (by exists cands);
    try (by destruct candidates).
  all: intros path; intros; destruct candidates, save as [path'|];
    try done.
  all: rewrite ?Hsrc in *; try done.
  all: destruct (decide (path' = path)) as [->|Hne]; simplify_map_eq; done.
Qed.

(** C8. The defaults are 4000 rounds, a patience of 200, depth 6, learning
    rate 0.03, row and column subsampling 0.5 and L1 term 1, and these are
    what the constructor hands to [set_boost_params]. *)
Theorem default_ranker_hyperparameters threads nn :
  ranker (__init__ threads nn)
  = set_boost_params CandidatesRanker 4000 200 DEFAULT_BOOST_PARAM
  ∧ DEFAULT_TRAIN_ROUNDS = 4000
  ∧ DEFAULT_EARLY_STOPPING = 200
  ∧ DEFAULT_BOOST_PARAM !! "max_depth" = Some (PInt 6)
  ∧ DEFAULT_BOOST_PARAM !! "eta" = Some (PFloat 0.03%Q)
  ∧ DEFAULT_BOOST_PARAM !! "subsample" = Some (PFloat 0.5%Q)
  ∧ DEFAULT_BOOST_PARAM !! "colsample_bytree" = Some (PFloat 0.5%Q)
  ∧ DEFAULT_BOOST_PARAM !! "alpha" = Some (PInt 1).
Proof. split_and!; reflexivity. Qed.

(** C10. What [suggest_by_batches] returns is the dictionary built from the
    items of all batches in order; a key that several batches return ends
    up with the suggestions of the last batch that returns it. *)
Theorem later_batch_overwrites test_df n return_all batch_size w d :
  (suggest_by_batches test_df n return_all batch_size w).1 = inr d →
  ∃ rs,
    batch_results (self w) test_df n return_all batch_size = inr rs
    ∧ d = dict_of_items (concat (items <$> rs))
    ∧ ∀ k i r,
        rs !! i = Some r →
        k ∈ keys r →
        (∀ j r', (i < j)%nat → rs !! j = Some r' → k ∉ keys r') →
        dict_get k d = dict_get k r.
Proof.
  rewrite suggest_by_batches_fst. unfold suggest_by_batches_out.
  destruct (batch_results _ _ _ _ _) as [e|rs]; [done|]. simpl.
  intros [= <-]. exists rs. split_and!; [done..|].
  intros k i r Hi Hk Hlater. unfold dict_get. cbn [items dict_of_items].
  apply (assoc_get_of_items_concat _ i).
  - exact (eq_trans (list_lookup_fmap items rs i) (f_equal (fmap items) Hi)).
  - apply items_NoDup.
  - done.
  - intros j d' Hij Hj.
    apply list_lookup_fmap_Some in Hj as (r' & -> & Hj).
    by apply (Hlater j).
Qed.

End corrector_properties.

(** ** Persistence *)

Section persistence.
Context `{S : SpecModel} {L : SpecLaws} {RT : RoundTripLaws}.

Implicit Types (w : World) (c : TyposCorrector).






(** The objects the methods produce are consistent. *)
Lemma consistent_init threads nn : consistent (__init__ threads nn).
Proof. done. Qed.

Lemma consistent_create_model v fr e k t m r w :
  consistent (self (create_model v fr e k t m r w).2).
Proof.
  unfold create_model. run. unfold consistent. simpl.
  split; [done|]. apply construct_fasttext.
Qed.

Lemma consistent_train typos candidates save w :
  consistent (self w) → consistent (self (train typos candidates save w).2).
Proof.
  rewrite train_run. simpl. unfold train_self, consistent.
  destruct (sourced _ _ _ _); [done|].
  by destruct (ranker_fit _ _ _ _).
Qed.

Lemma consistent_load_tree tree w :
  (_load_tree tree w).1 = inr () →
  consistent (self (_load_tree tree w).2).
Proof.
  unfold _load_tree, tree_item.
  destruct (tree !! "fasttext") as [[b| |]|]; run; try done.
  destruct (pickle_loads b) as [e|ft]; run; [done|].
  destruct (tree !! "finder") as [[|d|]|]; run; try done.
  destruct (finder_load_tree _ _) as [e|f] eqn:Hf; run; [done|].
  destruct (tree !! "ranker") as [[| |t]|]; run; try done.
  destruct (ranker_load_tree _ _) as [e|r]; run; [done|].
  intros _. unfold consistent. simpl. split; [done|].
  apply (load_tree_fasttext _ _ _ _ Hf). by rewrite lookup_insert_eq.
Qed.

End persistence.

(** ** Facts about the ranking of the specification *)

Section rank_facts.

Import Spec.

Lemma filter_all {A} (P : A → Prop) `{!∀ x, Decision (P x)} (l : list A) :
  Forall P l → filter P l = l.
Proof.
  induction 1 as [|x l Hx Hl IH]; [done|].
  rewrite filter_cons, decide_True by done. by rewrite IH.
Qed.

Lemma filter_none {A} (P : A → Prop) `{!∀ x, Decision (P x)} (l : list A) :
  Forall (λ x, ¬ P x) l → filter P l = [].
Proof.
  induction 1 as [|x l Hx Hl IH]; [done|].
  by rewrite filter_cons, decide_False.
Qed.

Lemma elem_of_first_seen x l : x ∈ first_seen l ↔ x ∈ l.
Proof.
  induction l as [|a l IH]; [done|]. cbn [first_seen].
  rewrite !elem_of_cons, list_elem_of_filter, IH.
  destruct (decide (x = a)) as [->|Hne].
  - split; intros _; by left.
  - split; [intros [?|[_ ?]]|intros [?|?]]; try done; by right.
Qed.

Lemma NoDup_first_seen l : NoDup (first_seen l).
Proof.
  induction l as [|a l IH]; [constructor|]. cbn [first_seen].
  constructor; [|by apply NoDup_filter].
  rewrite list_elem_of_filter. by intros [? _].
Qed.

Lemma first_seen_app l1 l2 :
  (∀ x, x ∈ l1 → x ∉ l2) →
  first_seen (l1 ++ l2) = first_seen l1 ++ first_seen l2.
Proof.
  induction l1 as [|a l1 IH]; intros Hdisj; [done|]. cbn [first_seen app].
  rewrite IH by (intros x Hx; apply Hdisj; by right).
  rewrite filter_app. do 2 f_equal. apply filter_all, Forall_forall.
  intros x Hx ->. apply (proj1 (elem_of_first_seen _ _)) in Hx.
  apply (Hdisj a); [by left|done].
Qed.

Lemma first_seen_NoDup l : NoDup l → first_seen l = l.
Proof.
  induction 1 as [|a l Ha Hl IH]; [done|]. cbn [first_seen].
  rewrite IH. f_equal. apply filter_all, Forall_forall. by intros x Hx ->.
Qed.

Lemma suggestion_of_key t rows n return_all y :
  suggestion_of t rows n return_all = Some y → y.1 = t.
Proof. unfold suggestion_of. case_match; [done|]. by intros [= <-]. Qed.

Lemma suggestion_of_all t rows n :
  is_Some (suggestion_of t rows n true).
Proof. unfold suggestion_of. simpl. eauto. Qed.

(** The keys of a ranking are typos of the rows, in first-seen order and
    without repetition. *)
Lemma rank_items_keys rows n return_all :
  (rank_items rows n return_all).*1
  = filter (λ t, is_Some (suggestion_of t rows n return_all))
      (first_seen (s_typo <$> rows)).
Proof.
  unfold rank_items. induction (first_seen (s_typo <$> rows)) as [|t l IH].
  - done.
  - cbn [omap list_omap]. rewrite filter_cons.
    destruct (suggestion_of t rows n return_all) as [y|] eqn:Hy.
    + rewrite decide_True by eauto. csimpl. f_equal; [|done].
      by apply suggestion_of_key in Hy.
    + rewrite decide_False by (by intros [? ?]). done.
Qed.

Lemma rank_items_keys_all rows n :
  (rank_items rows n true).*1 = first_seen (s_typo <$> rows).
Proof.
  rewrite rank_items_keys. apply filter_all, Forall_forall.
  intros t _. apply suggestion_of_all.
Qed.

Lemma rank_items_NoDup rows n return_all :
  NoDup (rank_items rows n return_all).*1.
Proof. rewrite rank_items_keys. apply NoDup_filter, NoDup_first_seen. Qed.

Lemma rank_scored_items rows n return_all :
  items (rank_scored rows n return_all) = rank_items rows n return_all.
Proof. apply assoc_of_items_id, rank_items_NoDup. Qed.

Lemma rank_items_elem_of k rows n return_all :
  k ∈ (rank_items rows n return_all).*1 → k ∈ s_typo <$> rows.
Proof.
  rewrite rank_items_keys, list_elem_of_filter, elem_of_first_seen.
  by intros [_ ?].
Qed.

(** Rows of other typos do not change the suggestion of a typo. *)
Lemma suggestion_of_app_l t rows1 rows2 n return_all :
  t ∉ s_typo <$> rows2 →
  suggestion_of t (rows1 ++ rows2) n return_all
  = suggestion_of t rows1 n return_all.
Proof.
  intros Ht. unfold suggestion_of, group_of.
  rewrite filter_app, (filter_none _ rows2), app_nil_r; [done|].
  apply Forall_forall. intros r Hr <-. apply Ht.
  apply list_elem_of_fmap. by exists r.
Qed.

Lemma suggestion_of_app_r t rows1 rows2 n return_all :
  t ∉ s_typo <$> rows1 →
  suggestion_of t (rows1 ++ rows2) n return_all
  = suggestion_of t rows2 n return_all.
Proof.
  intros Ht. unfold suggestion_of, group_of.
  rewrite filter_app, (filter_none _ rows1); [done|].
  apply Forall_forall. intros r Hr <-. apply Ht.
  apply list_elem_of_fmap. by exists r.
Qed.

(** Ranking two tables that share no typo, one after the other, is ranking
    their concatenation. *)
Lemma rank_items_app rows1 rows2 n return_all :
  (∀ t, t ∈ s_typo <$> rows1 → t ∉ s_typo <$> rows2) →
  rank_items (rows1 ++ rows2) n return_all
  = rank_items rows1 n return_all ++ rank_items rows2 n return_all.
Proof.
  intros Hdisj. unfold rank_items.
  rewrite fmap_app, first_seen_app, omap_app by done. f_equal.
  - apply list_omap_ext, Forall2_same_length_lookup_2; [done|].
    intros i t t' Ht Ht'. simplify_eq.
    apply suggestion_of_app_l, Hdisj, elem_of_first_seen.
    by eapply list_elem_of_lookup_2.
  - apply list_omap_ext, Forall2_same_length_lookup_2; [done|].
    intros i t t' Ht Ht'. simplify_eq.
    apply suggestion_of_app_r. intros Hin. apply (Hdisj t Hin).
    eapply elem_of_first_seen, list_elem_of_lookup_2. done.
Qed.

Lemma suggestion_of_is_Some t rows n return_all :
  is_Some (suggestion_of t rows n return_all)
  ↔ return_all = true ∨ s_candidate <$> head (group_of t rows) ≠ Some t.
Proof.
  unfold suggestion_of. cbv zeta.
  destruct return_all; cbn [negb andb].
  - split; [by left|by eauto].
  - case_bool_decide as Hhead.
    + split; [by intros [? ?]|]. by intros [?|?].
    + split; [by right|by eauto].
Qed.

Lemma rank_items_elem_of_iff k rows n return_all :
  k ∈ (rank_items rows n return_all).*1
  ↔ k ∈ s_typo <$> rows
    ∧ (return_all = true ∨ s_candidate <$> head (group_of k rows) ≠ Some k).
Proof.
  rewrite rank_items_keys, list_elem_of_filter, elem_of_first_seen.
  rewrite suggestion_of_is_Some. tauto.
Qed.

Lemma top_candidate_rank_scored k rows :
  k ∈ s_typo <$> rows →
  top_candidate (rank_scored rows None true) k
  = s_candidate <$> head (group_of k rows).
Proof.
  intros Hk. unfold top_candidate, dict_get.
  rewrite rank_scored_items.
  rewrite (assoc_get_Some_NoDup k
             ((λ r, (s_candidate r, s_score r)) <$> group_of k rows)).
  - by destruct (group_of k rows).
  - apply rank_items_NoDup.
  - unfold rank_items. apply list_elem_of_omap. exists k.
    split; [by apply elem_of_first_seen|done].
Qed.

End rank_facts.

(** ** The windows of a frame whose index labels are unique *)

Section windows.

Implicit Types (df : DataFrame).

Lemma filter_unique {A B} `{EqDecision B} (f : A → B) (l : list A) i r :
  NoDup (f <$> l) → l !! i = Some r → filter (λ x, f x = f r) l = [r].
Proof.
  intros Hnd Hi. rewrite <- (take_drop_middle l i r Hi) in Hnd |- *.
  rewrite fmap_app, fmap_cons in Hnd.
  apply NoDup_app in Hnd as (_ & Hbefore & [Hafter _]%NoDup_cons).
  rewrite filter_app, filter_cons, decide_True by done.
  rewrite !filter_none; [done|apply Forall_forall..].
  - intros x Hx Heq. apply Hafter. rewrite <- Heq.
    apply list_elem_of_fmap. by exists x.
  - intros x Hx Heq. apply (Hbefore (f x)).
    + apply list_elem_of_fmap. by exists x.
    + rewrite Heq. by left.
Qed.

(** A label that occurs once stands for its position. *)
Lemma label_run_unique df i r :
  NoDup (idx <$> df) → df !! i = Some r →
  label_run (idx r) df = inr (i, (i + 1)%nat).
Proof.
  intros Hnd Hi. unfold label_run.
  assert (list_find (λ r', idx r' = idx r) df = Some (i, r)) as ->.
  { apply list_find_Some. split_and!; [done..|].
    intros j y Hj Hlt Heq.
    assert (i = j); [|lia].
    apply (NoDup_lookup _ _ _ (idx r) Hnd); rewrite list_lookup_fmap.
    - by rewrite Hi.
    - rewrite Hj. simpl. by rewrite Heq. }
  rewrite (filter_unique idx df i r Hnd Hi). simpl.
  rewrite (drop_S _ _ _ Hi). simpl. rewrite take_0.
  by rewrite bool_decide_true by (by repeat constructor).
Qed.

(** A label slice between two positions of such a frame is the slice of
    positions, both ends included. *)
Lemma loc_slice_unique df i j ri rj :
  NoDup (idx <$> df) → df !! i = Some ri → df !! j = Some rj →
  loc_slice df (idx ri) (idx rj) = inr (take (j + 1 - i) (drop i df)).
Proof.
  intros Hnd Hi Hj. unfold loc_slice.
  by rewrite (label_run_unique df i ri), (label_run_unique df j rj).
Qed.

Lemma index_at_lookup df (i : nat) r :
  df !! i = Some r → index_at df (Z.of_nat i) = inr (idx r).
Proof.
  intros Hi. unfold index_at.
  rewrite (proj2 (Z.ltb_ge _ _)), (proj2 (Z.leb_le _ _)) by lia.
  by rewrite Nat2Z.id, Hi.
Qed.

(** The window that starts at position [k] holds the next [batch_size]
    rows, or those that are left. *)
Lemma batch_window_unique df (b k : nat) :
  NoDup (idx <$> df) → (0 < b)%nat → (k < length df)%nat →
  batch_window df (Z.of_nat b) (Z.of_nat k) = inr (take b (drop k df)).
Proof.
  intros Hnd Hb Hk. unfold batch_window, df_len.
  destruct (lookup_lt_is_Some_2 df k Hk) as [rk Hrk].
  set (j := Nat.min (length df - 1) (k + b - 1)).
  assert (Z.min (Z.of_nat (length df) - 1) (Z.of_nat k + Z.of_nat b - 1)
          = Z.of_nat j) as -> by lia.
  destruct (lookup_lt_is_Some_2 df j) as [rj Hrj]; [lia|].
  rewrite (index_at_lookup df k rk Hrk), (index_at_lookup df j rj Hrj). simpl.
  rewrite (loc_slice_unique df k j rk rj Hnd Hrk Hrj). f_equal.
  destruct (decide (k + b <= length df)%nat).
  - f_equal. lia.
  - rewrite !take_ge; [done|rewrite length_drop; lia..].
Qed.

Lemma concat_windows df (b m : nat) :
  concat ((λ k : nat, take b (drop (k * b) df)) <$> seq 0 m)
  = take (m * b) df.
Proof.
  induction m as [|m IH]; [done|].
  rewrite seq_S, fmap_app, concat_app, IH. simpl. rewrite app_nil_r.
  rewrite take_take_drop. f_equal. lia.
Qed.

(** For a frame with unique labels and a positive batch size the loop
    visits windows that, put end to end, are the frame. *)
Lemma batch_windows_partition df batch_size :
  NoDup (idx <$> df) → 0 < batch_size →
  ∃ starts chunks,
    py_range 0 (df_len df) batch_size = inr starts
    ∧ Forall2 (λ i chunk, batch_window df batch_size i = inr chunk)
        starts chunks
    ∧ concat chunks = df.
Proof.
  intros Hnd Hb. unfold py_range, range_len, df_len.
  rewrite (proj2 (Z.eqb_neq _ _)), (proj2 (Z.ltb_lt 0 batch_size)) by lia.
  set (b := Z.to_nat batch_size).
  assert (batch_size = Z.of_nat b) as Hbb by lia.
  set (m := Z.to_nat
              (if 0 <? Z.of_nat (length df)
               then (Z.of_nat (length df) - 0 + batch_size - 1) `div` batch_size
               else 0)).
  assert (∀ k, (k < m)%nat → (k * b < length df)%nat) as Hlt.
  { intros k Hk. subst m.
    destruct (Z.ltb_spec 0 (Z.of_nat (length df))) as [Hlen|Hlen]; [|lia].
    pose proof (Z.mul_div_le (Z.of_nat (length df) - 0 + batch_size - 1)
                  batch_size Hb). nia. }
  assert (length df ≤ m * b)%nat as Hge.
  { subst m.
    destruct (Z.ltb_spec 0 (Z.of_nat (length df))) as [Hlen|Hlen]; [|lia].
    pose proof (Z.mul_succ_div_gt (Z.of_nat (length df) - 0 + batch_size - 1)
                  batch_size Hb).
    pose proof (Z.div_pos (Z.of_nat (length df) - 0 + batch_size - 1)
                  batch_size). nia. }
  eexists _, ((λ k : nat, take b (drop (k * b) df)) <$> seq 0 m).
  split_and!; [done| |].
  - apply Forall2_fmap, Forall2_same_length_lookup_2; [done|].
    intros i k k' Hk Hk'. simplify_eq. simpl.
    apply lookup_seq in Hk as [-> Hk]. simpl.
    replace (0 + Z.of_nat i * batch_size) with (Z.of_nat (i * b)) by lia.
    rewrite Hbb. apply batch_window_unique; [done|lia|by apply Hlt].
  - rewrite concat_windows. by apply take_ge.
Qed.

Lemma collect_windows {B} (win : Z → result DataFrame)
    (f : DataFrame → result B) starts chunks :
  Forall2 (λ i chunk, win i = inr chunk) starts chunks →
  collect starts (λ i, rbind (win i) f) = collect chunks f.
Proof.
  induction 1 as [|i chunk starts chunks Hi _ IH]; [done|].
  cbn [collect]. by rewrite Hi, IH.
Qed.

End windows.

(** ** Properties that rest on the specification of the collaborators *)

Section spec_properties.
Context `{S : SpecModel} {L : SpecLaws}.

Implicit Types (w : World) (c : TyposCorrector).

Lemma never_trained_ranker c : never_trained c → trained (ranker c) = false.
Proof.
  induction 1 as [threads nn|c rounds stop params _ IH|c v fr e k t m r _ IH].
  - simpl. rewrite set_boost_params_trained. apply ranker_new_untrained.
  - simpl. by rewrite set_boost_params_trained.
  - done.
Qed.

Lemma score_rows_candidates r (cands : Candidates) :
  score_rows r (get_candidates_tokens cands) (get_candidates_features cands)
  = (λ cr, Spec.Scored (c_typo cr) (c_candidate cr)
             (predict r (c_features cr)) (f_frequency (c_features cr)))
      <$> cands.
Proof.
  unfold score_rows, get_candidates_tokens, get_candidates_features.
  induction cands as [|cr cands IH]; [done|]. csimpl. by rewrite IH.
Qed.

Lemma suggest_out_trained c g typos save n return_all :
  generator c = Some g → trained (ranker c) = true →
  suggest_out c typos None save n return_all
  = inr (Spec.rank_scored (scored_rows c g typos) n return_all).
Proof.
  intros Hg Ht. unfold suggest_out, sourced. rewrite Hg. simpl.
  rewrite rank_trained by done.
  by rewrite score_rows_candidates, generate_per_record.
Qed.

Lemma scored_rows_app c g df1 df2 :
  scored_rows c g (df1 ++ df2) = scored_rows c g df1 ++ scored_rows c g df2.
Proof. unfold scored_rows. by rewrite bind_app, fmap_app. Qed.

(** The typos of the scored rows are those of the records that have a
    candidate. *)
Lemma scored_rows_typo c g df t :
  t ∈ Spec.s_typo <$> scored_rows c g df
  ↔ ∃ row, row ∈ df ∧ typo row = t ∧ typo_candidates g (finder c) row ≠ [].
Proof.
  unfold scored_rows, record_candidates.
  rewrite <- list_fmap_compose, list_elem_of_fmap. split.
  - intros (cr & -> & (row & Hcr & Hrow)%list_elem_of_bind).
    apply list_elem_of_fmap in Hcr as (cf & -> & Hcf).
    exists row. split_and!; [done..|]. intros Hnil.
    rewrite Hnil in Hcf. by apply elem_of_nil in Hcf.
  - intros (row & Hrow & <- & Hne).
    destruct (typo_candidates g (finder c) row) as [|cf cfs] eqn:Hcfs; [done|].
    exists (CandRow (typo row) cf.1 cf.2). split; [done|].
    apply list_elem_of_bind. exists row. split; [|done].
    rewrite Hcfs. csimpl. by left.
Qed.

Lemma collect_inr {A B} (f : A → B) (l : list A) :
  collect l (λ a, inr (f a)) = inr (f <$> l).
Proof. induction l as [|a l IH]; [done|]. cbn [collect]. by rewrite IH. Qed.

Lemma collect_ext {A B} (f g : A → result B) (l : list A) :
  (∀ a, f a = g a) → collect l f = collect l g.
Proof.
  intros Hfg. induction l as [|a l IH]; [done|]. cbn [collect].
  by rewrite Hfg, IH.
Qed.

(** What the batches return on a frame with unique labels. *)
Lemma batch_results_trained c g test_df n return_all batch_size :
  generator c = Some g → trained (ranker c) = true →
  NoDup (idx <$> test_df) → 0 < batch_size →
  ∃ chunks,
    concat chunks = test_df
    ∧ batch_results c test_df n return_all batch_size
      = inr ((λ chunk, Spec.rank_scored (scored_rows c g chunk) n return_all)
               <$> chunks).
Proof.
  intros Hg Ht Hnd Hb.
  destruct (batch_windows_partition test_df batch_size Hnd Hb)
    as (starts & chunks & Hrange & Hwin & Hcat).
  exists chunks. split; [done|]. unfold batch_results. rewrite Hrange. simpl.
  rewrite (collect_windows _ _ _ _ Hwin). rewrite <- collect_inr.
  apply collect_ext. intros chunk. by apply suggest_out_trained.
Qed.

Lemma assoc_of_items_keys {V} (l : list (string * V)) k :
  k ∈ (assoc_of_items l).*1 ↔ k ∈ l.*1.
Proof.
  destruct (decide (k ∈ l.*1)) as [Hin|Hin].
  - split; [done|]. intros _.
    destruct (decide (k ∈ (assoc_of_items l).*1)) as [|Hout]; [done|].
    apply assoc_get_None in Hout. rewrite assoc_get_of_items in Hout.
    apply assoc_get_None in Hout.
    by rewrite fmap_reverse, elem_of_reverse in Hout.
  - split; [|done]. intros Hk. exfalso.
    assert (assoc_get k (assoc_of_items l) = None) as Hnone.
    { rewrite assoc_get_of_items. apply assoc_get_None.
      by rewrite fmap_reverse, elem_of_reverse. }
    by apply assoc_get_None in Hnone.
Qed.

(** Ranking the chunks of a frame whose typos are pairwise distinct, and
    putting the items end to end, is ranking the frame. *)
Lemma rank_items_chunks c g chunks n return_all :
  NoDup (typo <$> concat chunks) →
  concat ((λ chunk, Spec.rank_items (scored_rows c g chunk) n return_all)
            <$> chunks)
  = Spec.rank_items (scored_rows c g (concat chunks)) n return_all.
Proof.
  induction chunks as [|chunk chunks IH]; [done|]. csimpl.
  rewrite fmap_app. intros (Hchunk & Hdisj & Hrest)%NoDup_app.
  rewrite scored_rows_app, rank_items_app, IH; [done..|].
  intros t (row & Hrow & <- & _)%scored_rows_typo
           (row' & Hrow' & Heq & _)%scored_rows_typo.
  apply (Hdisj (typo row)).
  - apply list_elem_of_fmap. by exists row.
  - rewrite <- Heq. apply list_elem_of_fmap. by exists row'.
Qed.

(** C1, amended.  When the system has a generator and a trained ranker,
    the index labels of the frame are unique, its typos are pairwise
    distinct, the batch size is positive and both entry points are given
    the same [n_candidates] and [return_all], [suggest_by_batches] returns
    what one call of [suggest] on the whole frame returns. *)
Theorem batches_agree_on_distinct_typos c g test_df save n return_all
    batch_size w :
  self w = c →
  generator c = Some g →
  trained (ranker c) = true →
  NoDup (idx <$> test_df) →
  NoDup (typo <$> test_df) →
  0 < batch_size →
  (suggest_by_batches test_df n return_all batch_size w).1
  = (suggest test_df None save n return_all w).1.
Proof.
  intros Hself Hg Ht Hidx Htypo Hb.
  rewrite suggest_by_batches_fst, suggest_fst, Hself.
  rewrite (suggest_out_trained c g) by done.
  unfold suggest_by_batches_out.
  destruct (batch_results_trained c g test_df n return_all batch_size
              Hg Ht Hidx Hb) as (chunks & Hcat & ->).
  simpl. f_equal. apply pydict_eq. simpl.
  rewrite <- list_fmap_compose.
  erewrite list_fmap_ext; [|intros i chunk _; apply rank_scored_items].
  rewrite <- Hcat in Htypo. rewrite rank_items_chunks by done.
  by rewrite Hcat.
Qed.

(** C3, amended.  An object fresh from the constructor has no generator:
    [suggest] without a candidates table raises [AttributeError] on that
    attribute, and has called no collaborator by then.  On an object that
    was never trained nor loaded, a call that gets as far as the ranker
    (a table was passed, or [create_model] has run) raises
    [ModelNotTrainedError]. *)
Theorem suggest_before_training threads nn c typos candidates save n
    return_all w :
  suggest typos None save n return_all (world_of (__init__ threads nn))
  = (inl (AttributeError "generator"),
     traced (world_of (__init__ threads nn))
       [CallSuggest typos None save n return_all])
  ∧ (never_trained c →
     self w = c →
     is_Some candidates ∨ is_Some (generator c) →
     (suggest typos candidates save n return_all w).1
     = inl ModelNotTrainedError).
Proof.
  split; [done|]. intros Hnt Hself Hreach.
  rewrite suggest_fst, Hself. unfold suggest_out.
  assert (∃ cands, sourced c typos candidates save = inr cands) as [cands ->].
  { unfold sourced. destruct candidates as [cands|]; [by eexists|].
    destruct Hreach as [[? [=]]|[g ->]]. by eexists. }
  simpl. apply rank_untrained. by apply never_trained_ranker.
Qed.

(** C5, amended.  With a generator and a trained ranker, [suggest]
    returns a dictionary whose keys are exactly the typos of records that
    have at least one candidate and, when [return_all] is [False], whose
    top candidate -- the first suggestion the same call returns with
    [return_all=True] and no bound on [n_candidates] -- is not the typo
    itself: a typo without candidates is not a key.  On a frame with
    unique index labels and a positive batch size, the keys of what
    [suggest_by_batches] returns are exactly the keys [suggest] returns on
    the windows, which partition the frame; so they are typos with
    candidates, and with [return_all] all of them. *)
Theorem suggestions_cover_typos_with_candidates c g typos save n return_all
    batch_size w :
  self w = c →
  generator c = Some g →
  trained (ranker c) = true →
  let has_candidates k :=
    ∃ row, row ∈ typos ∧ typo row = k
           ∧ typo_candidates g (finder c) row ≠ [] in
  (∃ d ranked,
     (suggest typos None save n return_all w).1 = inr d
     ∧ (suggest typos None save None true w).1 = inr ranked
     ∧ (∀ k, k ∈ keys ranked ↔ has_candidates k)
     ∧ (∀ k, k ∈ keys d
             ↔ has_candidates k
               ∧ (return_all = true ∨ top_candidate ranked k ≠ Some k)))
  ∧ (NoDup (idx <$> typos) → 0 < batch_size →
     ∃ d chunks,
       (suggest_by_batches typos n return_all batch_size w).1 = inr d
       ∧ batch_frames typos batch_size = inr chunks
       ∧ concat chunks = typos
       ∧ (∀ k, k ∈ keys d
               ↔ ∃ chunk dc,
                   chunk ∈ chunks
                   ∧ (suggest chunk None None n return_all w).1 = inr dc
                   ∧ k ∈ keys dc)
       ∧ (∀ k, k ∈ keys d → has_candidates k)
       ∧ (return_all = true → ∀ k, has_candidates k → k ∈ keys d)).
Proof.
  intros Hself Hg Ht has_candidates. split.
  - rewrite !suggest_fst, Hself, !(suggest_out_trained c g) by done.
    eexists _, _. split_and!; [done..| |].
    + intros k. unfold keys. rewrite rank_scored_items, rank_items_keys_all.
      by rewrite elem_of_first_seen, scored_rows_typo.
    + intros k. unfold keys. rewrite rank_scored_items.
      rewrite rank_items_elem_of_iff.
      subst has_candidates. cbv beta.
      rewrite <- (scored_rows_typo c g typos k).
      split.
      * intros [Hk Hkeep]. split; [done|].
        by rewrite top_candidate_rank_scored.
      * intros [Hk Hkeep]. split; [done|].
        by rewrite top_candidate_rank_scored in Hkeep.
  - intros Hidx Hb.
    rewrite suggest_by_batches_fst, Hself. unfold suggest_by_batches_out.
    destruct (batch_windows_partition typos batch_size Hidx Hb)
      as (starts & chunks & Hrange & Hwin & Hcat).
    assert (batch_frames typos batch_size = inr chunks) as Hframes.
    { unfold batch_frames. rewrite Hrange. cbn [rbind].
      transitivity
        (collect starts (λ i,
           rbind (batch_window typos batch_size i) (λ batch, inr batch))).
      - apply collect_ext. intros i. by destruct (batch_window _ _ _).
      - rewrite (collect_windows _ _ _ _ Hwin), (collect_inr id).
        by rewrite list_fmap_id. }
    assert (batch_results c typos n return_all batch_size
            = inr ((λ chunk,
                      Spec.rank_scored (scored_rows c g chunk) n return_all)
                     <$> chunks)) as ->.
    { unfold batch_results. rewrite Hrange. cbn [rbind].
      rewrite (collect_windows _ _ _ _ Hwin), <- collect_inr.
      apply collect_ext. intros chunk. by apply suggest_out_trained. }
    simpl. eexists _, chunks. split_and!; [done..| | |]; unfold keys; simpl.
    all: assert (∀ k, k ∈ (concat
                        (items <$>
                           ((λ chunk,
                               Spec.rank_scored (scored_rows c g chunk) n
                                 return_all) <$> chunks))).*1
                 ↔ ∃ chunk, chunk ∈ chunks
                     ∧ k ∈ (Spec.rank_items (scored_rows c g chunk) n
                              return_all).*1) as Hkeys.
    1,3,5: intros k; rewrite list_elem_of_fmap; split;
      [ intros (kv & -> & Hkv);
        apply list_elem_of_In, in_concat in Hkv as (its & Hits & Hkv);
        apply list_elem_of_In in Hits, Hkv;
        apply list_elem_of_fmap in Hits as (d & -> & Hd);
        apply list_elem_of_fmap in Hd as (chunk & -> & Hchunk);
        rewrite rank_scored_items in Hkv;
        exists chunk; split; [done|]; apply list_elem_of_fmap; by exists kv
      | intros (chunk & Hchunk & (kv & -> & Hkv)%list_elem_of_fmap);
        exists kv; split; [done|];
        apply list_elem_of_In, in_concat;
        exists (Spec.rank_items (scored_rows c g chunk) n return_all);
        split; [|by apply list_elem_of_In];
        apply list_elem_of_In, list_elem_of_fmap;
        exists (Spec.rank_scored (scored_rows c g chunk) n return_all);
        split; [by rewrite rank_scored_items|];
        apply list_elem_of_fmap; by exists chunk ].
    + intros k. rewrite assoc_of_items_keys, Hkeys. split.
      * intros (chunk & Hchunk & Hk).
        exists chunk, (Spec.rank_scored (scored_rows c g chunk) n return_all).
        split_and!; [done| |by rewrite rank_scored_items].
        by rewrite suggest_fst, Hself, (suggest_out_trained c g).
      * intros (chunk & dc & Hchunk & Hdc & Hk).
        rewrite suggest_fst, Hself, (suggest_out_trained c g) in Hdc by done.
        injection Hdc as <-. rewrite rank_scored_items in Hk.
        by exists chunk.
    + intros k (chunk & Hchunk & Hk)%assoc_of_items_keys%Hkeys.
      apply rank_items_elem_of, scored_rows_typo in Hk
        as (row & Hrow & Htypo & Hne).
      exists row. split_and!; [|done..]. rewrite <- Hcat.
      apply list_elem_of_In, in_concat. exists chunk.
      split; by apply list_elem_of_In.
    + intros -> k (row & Hrow & Htypo & Hne).
      apply assoc_of_items_keys, Hkeys.
      rewrite <- Hcat in Hrow.
      apply list_elem_of_In, in_concat in Hrow as (chunk & Hchunk & Hrow).
      apply list_elem_of_In in Hchunk, Hrow.
      exists chunk. split; [done|]. rewrite rank_items_keys_all.
      apply elem_of_first_seen, scored_rows_typo. by exists row.
Qed.

End spec_properties.

(** ** The closed instantiation meets the specification *)

Global Instance scenario_spec_laws : SpecLaws (S := Scenario.spec_model).
Proof.
  split.
  - done.
  - intros [rounds stop params [[]|]] tokens feats n return_all; by simpl.
  - intros [rounds stop params [[]|]] tokens feats n return_all; by simpl.
  - done.
  - done.
Qed.

Global Instance scenario_round_trip : RoundTripLaws (S := Scenario.spec_model).
Proof.
  split.
  - done.
  - intros f0 [v k t m r oft] ft; simpl. by intros ->.
  - done.
  - done.
  - intros f0 d f ft. simpl. unfold Scenario.load_tree.
    intros Hload Hft. rewrite Hft in Hload.
    repeat case_match; by simplify_eq/=.
Qed.



(** ** Edges of the loop of [suggest_by_batches] *)

Section loop_edges.
Context `{C : Components}.

Implicit Types (w : World) (c : TyposCorrector).

Lemma py_range_empty step : step ≠ 0 → py_range 0 0 step = inr [].
Proof.
  intros Hstep. unfold py_range, range_len.
  rewrite (proj2 (Z.eqb_neq _ _)) by done. by destruct (0 <? step).
Qed.

Lemma py_range_negative_step stop step :
  0 ≤ stop → step < 0 → py_range 0 stop step = inr [].
Proof.
  intros Hstop Hstep. unfold py_range, range_len.
  rewrite (proj2 (Z.eqb_neq _ _)) by lia.
  rewrite (proj2 (Z.ltb_ge 0 step)) by lia.
  by rewrite (proj2 (Z.ltb_ge stop 0)) by lia.
Qed.

(** X1. On a frame without rows [suggest_by_batches] returns the empty
    dictionary whatever the object is: it reads no attribute, calls no
    collaborator and leaves the world as it was.  The batch size must not
    be zero. *)
Theorem batches_of_empty_frame n return_all batch_size w :
  batch_size ≠ 0 →
  suggest_by_batches [] n return_all batch_size w = (inr (dict_of_items []), w).
Proof.
  intros Hb. rewrite suggest_by_batches_run.
  by rewrite py_range_empty.
Qed.

(** X2. A batch size that is not positive: zero makes [range] raise
    [ValueError]; with a negative one the loop has no turn and the result
    is the empty dictionary, however many rows the frame has.  Either way
    nothing is called and the world is left as it was. *)
Theorem batches_with_nonpositive_size test_df n return_all batch_size w :
  batch_size ≤ 0 →
  suggest_by_batches test_df n return_all batch_size w
  = (if batch_size =? 0 then inl ValueError else inr (dict_of_items []), w).
Proof.
  intros Hb. rewrite suggest_by_batches_run.
  destruct (Z.eqb_spec batch_size 0) as [->|Hne]; [done|].
  rewrite py_range_negative_step; [done|unfold df_len; lia|lia].
Qed.

Lemma py_range_first stop step :
  0 < stop → 0 < step →
  ∃ starts, py_range 0 stop step = inr (0 :: starts).
Proof.
  intros Hstop Hstep. unfold py_range, range_len.
  rewrite (proj2 (Z.eqb_neq _ _)) by lia.
  rewrite (proj2 (Z.ltb_lt 0 step)), (proj2 (Z.ltb_lt 0 stop)) by lia.
  assert (1 ≤ (stop - 0 + step - 1) `div` step) as Hq.
  { apply Z.div_le_lower_bound; lia. }
  destruct (Z.to_nat ((stop - 0 + step - 1) `div` step)) as [|m] eqn:Hm; [lia|].
  eexists. simpl. done.
Qed.



End loop_edges.

(** ** The frames the loop hands to [suggest] *)

Section loop_frames.
Context `{C : Components}.

Implicit Types (w : World) (c : TyposCorrector).

Lemma suggested_frames_suggest_trace c typos candidates save n return_all :
  suggested_frames (suggest_trace c typos candidates save n return_all)
  = [typos].
Proof.
  unfold suggested_frames, suggest_trace. cbn [omap list_omap]. f_equal.
  destruct (sourced c typos candidates save) as [e|cands]; [done|].
  by destruct candidates.
Qed.

Lemma new_calls_refl w : new_calls w w = [].
Proof. unfold new_calls. by rewrite drop_all. Qed.

(** When every turn of the loop returns, the frames [suggest] was entered
    with are the windows, in the order of the loop. *)
Lemma loop_frames test_df n return_all batch_size starts w rs :
  (for_each starts (batch_turn test_df n return_all batch_size) w).1 = inr rs →
  ∃ frames,
    collect starts (batch_window test_df batch_size) = inr frames
    ∧ suggested_frames
        (new_calls w
           (for_each starts (batch_turn test_df n return_all batch_size) w).2)
      = frames.
Proof.
  revert w rs. induction starts as [|i starts IH]; intros w rs.
  - intros _. exists []. split; [done|]. simpl. by rewrite new_calls_refl.
  - rewrite for_each_cons, batch_turn_run. cbn [collect].
    destruct (batch_window test_df batch_size i) as [e|batch]; [done|].
    destruct (suggest_out (self w) batch None None n return_all)
      as [e|d]; [done|]. cbn [rmap rbind].
    match goal with |- context [for_each starts ?b ?w'] =>
      pose proof (IH w') as IHw;
      destruct (loop_run test_df n return_all batch_size starts w')
        as (_ & _ & _ & new & Hcalls & _);
      destruct (for_each starts b w') as [[e|rs'] w''] eqn:Hloop
    end; [done|].
    intros _. destruct (IHw rs' eq_refl) as (frames & -> & Hframes).
    exists (batch :: frames). split; [done|].
    cbn [fst snd calls] in *. unfold new_calls in *. cbn [calls] in *.
    rewrite Hcalls, drop_app_length in Hframes.
    rewrite Hcalls, <- (assoc (++)), drop_app_length.
    unfold suggested_frames in *. rewrite omap_app.
    fold (suggested_frames
            (suggest_trace (self w) batch None None n return_all)).
    by rewrite suggested_frames_suggest_trace, Hframes.
Qed.

Lemma batches_frames test_df n return_all batch_size w d :
  (suggest_by_batches test_df n return_all batch_size w).1 = inr d →
  ∃ frames,
    batch_frames test_df batch_size = inr frames
    ∧ suggested_frames
        (new_calls w (suggest_by_batches test_df n return_all batch_size w).2)
      = frames.
Proof.
  rewrite suggest_by_batches_run. unfold batch_frames.
  destruct (py_range 0 (df_len test_df) batch_size) as [e|starts]; [done|].
  cbn [rbind].
  pose proof (loop_frames test_df n return_all batch_size starts w) as Hloop.
  destruct (for_each starts _ w) as [[e|rs] w']; [done|].
  intros _. by apply (Hloop rs).
Qed.

End loop_frames.

(** ** The defaults of the two entry points *)

Section defaults.
Context `{C : Components}.

Implicit Types (w : World) (c : TyposCorrector).

Lemma loop_trace test_df n return_all batch_size starts w rs :
  (for_each starts (batch_turn test_df n return_all batch_size) w).1 = inr rs →
  ∃ frames,
    collect starts (batch_window test_df batch_size) = inr frames
    ∧ new_calls w
        (for_each starts (batch_turn test_df n return_all batch_size) w).2
      = frames ≫= (λ batch,
          suggest_trace (self w) batch None None n return_all).
Proof.
  revert w rs. induction starts as [|i starts IH]; intros w rs.
  - intros _. exists []. split; [done|]. simpl. by rewrite new_calls_refl.
  - rewrite for_each_cons, batch_turn_run. cbn [collect].
    destruct (batch_window test_df batch_size i) as [e|batch]; [done|].
    destruct (suggest_out (self w) batch None None n return_all)
      as [e|d]; [done|]. cbn [rmap rbind].
    match goal with |- context [for_each starts ?b ?w'] =>
      pose proof (IH w') as IHw;
      destruct (loop_run test_df n return_all batch_size starts w')
        as (_ & _ & _ & new & Hcalls & _);
      destruct (for_each starts b w') as [[e|rs'] w''] eqn:Hloop
    end; [done|].
    intros _. destruct (IHw rs' eq_refl) as (frames & -> & Hframes).
    exists (batch :: frames). split; [done|].
    cbn [fst snd calls self] in *. unfold new_calls in *. cbn [calls] in *.
    rewrite Hcalls, drop_app_length in Hframes.
    rewrite Hcalls, <- (assoc (++)), drop_app_length.
    by rewrite Hframes.
Qed.

Lemma batches_trace test_df n return_all batch_size w d :
  (suggest_by_batches test_df n return_all batch_size w).1 = inr d →
  ∃ frames,
    batch_frames test_df batch_size = inr frames
    ∧ new_calls w (suggest_by_batches test_df n return_all batch_size w).2
      = frames ≫= (λ batch,
          suggest_trace (self w) batch None None n return_all).
Proof.
  rewrite suggest_by_batches_run. unfold batch_frames.
  destruct (py_range 0 (df_len test_df) batch_size) as [e|starts]; [done|].
  cbn [rbind].
  pose proof (loop_trace test_df n return_all batch_size starts w) as Hloop.
  destruct (for_each starts _ w) as [[e|rs] w']; [done|].
  intros _. by apply (Hloop rs).
Qed.

Lemma first_turn_trace test_df n return_all batch_size w batch :
  0 < batch_size →
  batch_window test_df batch_size 0 = inr batch →
  ∃ rest,
    new_calls w (suggest_by_batches test_df n return_all batch_size w).2
    = suggest_trace (self w) batch None None n return_all ++ rest.
Proof.
  intros Hb Hbatch.
  assert (0 < df_len test_df) as Hlen.
  { destruct test_df; [done|]. unfold df_len. simpl. lia. }
  destruct (py_range_first (df_len test_df) batch_size Hlen Hb)
    as [starts Hstarts].
  rewrite suggest_by_batches_run, Hstarts, for_each_cons, batch_turn_run,
    Hbatch.
  destruct (suggest_out (self w) batch None None n return_all) as [e|d];
    cbn [rmap].
  { exists []. cbn [snd]. erewrite new_calls_app; [|done].
    by rewrite app_nil_r. }
  match goal with |- context [for_each starts ?b ?w'] =>
    destruct (loop_run test_df n return_all batch_size starts w')
      as (_ & _ & _ & new & Hcalls & _);
    destruct (for_each starts b w') as [[e|rs] w'']
  end; cbn [fst snd calls] in *; exists new;
    apply new_calls_app; by rewrite Hcalls, <- (assoc (++)).
Qed.

(** C9. Called with its defaults, [suggest_by_batches] passes
    [n_candidates=None] to every [suggest] it enters and so to every
    [rank]; [suggest] called with its own defaults passes 3.  On an object
    with a generator these calls are made: [suggest] ends in one [rank]
    that is asked for 3 candidates and returns what it returns; the first
    turn of the batched loop enters [suggest] on the first window and
    reaches a [rank] that is asked for [None]; and a batched run that
    returns has made exactly these five calls for each window, in order. *)
Theorem default_n_candidates_differ test_df typos batch_size w :
  suggest_defaults typos = suggest typos None None (Some 3%nat) true
  ∧ suggest_by_batches_defaults test_df batch_size
    = suggest_by_batches test_df None true batch_size
  ∧ Forall (receives None)
      (new_calls w (suggest_by_batches_defaults test_df batch_size w).2)
  ∧ (∃ rest,
       new_calls w (suggest_defaults typos w).2
       = CallSuggest typos None None (Some 3%nat) true :: rest
       ∧ Forall (receives (Some 3%nat)) rest)
  ∧ ∀ g, generator (self w) = Some g →
      let generated df :=
        generate_candidates g df (finder (self w)) (threads_number (self w))
          None in
      let entered n df :=
        [ CallSuggest df None None n true;
          CallGenerate df (threads_number (self w)) None;
          CallGetTokens (generated df);
          CallGetFeatures (generated df);
          CallRank (get_candidates_tokens (generated df))
            (get_candidates_features (generated df)) n true ] in
      new_calls w (suggest_defaults typos w).2 = entered (Some 3%nat) typos
      ∧ (suggest_defaults typos w).1
        = ranker_rank (ranker (self w))
            (get_candidates_tokens (generated typos))
            (get_candidates_features (generated typos)) (Some 3%nat) true
      ∧ (∀ batch,
           0 < batch_size →
           batch_window test_df batch_size 0 = inr batch →
           ∃ rest,
             new_calls w (suggest_by_batches_defaults test_df batch_size w).2
             = entered None batch ++ rest)
      ∧ (∀ d,
           (suggest_by_batches_defaults test_df batch_size w).1 = inr d →
           ∃ frames,
             batch_frames test_df batch_size = inr frames
             ∧ new_calls w
                 (suggest_by_batches_defaults test_df batch_size w).2
               = frames ≫= entered None).
Proof.
  split_and!; [done..| | |].
  - unfold suggest_by_batches_defaults.
    destruct (suggest_by_batches_frame test_df
                suggest_by_batches_n_candidates_default return_all_default
                batch_size w) as (_ & _ & new & Hcalls & Hnew).
    by erewrite new_calls_app by done.
  - unfold suggest_defaults. rewrite suggest_run. simpl.
    erewrite new_calls_app by done.
    eexists. split; [done|].
    pose proof (suggest_trace_receives (self w) typos None None
                  suggest_n_candidates_default return_all_default) as Hall.
    by apply Forall_cons in Hall as [_ Hall].
  - intros g Hg generated entered.
    assert (∀ n df, suggest_trace (self w) df None None n true
                    = entered n df) as Htrace.
    { intros n df. unfold suggest_trace, sourced. by rewrite Hg. }
    split_and!.
    + unfold suggest_defaults. rewrite suggest_run. cbn [snd].
      erewrite new_calls_app by done. apply Htrace.
    + unfold suggest_defaults. rewrite suggest_fst.
      unfold suggest_out, sourced. by rewrite Hg.
    + intros batch Hb Hbatch. unfold suggest_by_batches_defaults.
      destruct (first_turn_trace test_df
                  suggest_by_batches_n_candidates_default return_all_default
                  batch_size w batch Hb Hbatch) as [rest Hrest].
      exists rest. rewrite Hrest. f_equal. apply Htrace.
    + intros d Hd. unfold suggest_by_batches_defaults in *.
      destruct (batches_trace test_df _ _ batch_size w d Hd)
        as (frames & Hframes & Hcalls).
      exists frames. split; [done|]. rewrite Hcalls.
      apply list_bind_ext; [|done]. intros batch. apply Htrace.
Qed.

End defaults.

Section window_positions.

Implicit Types (df : DataFrame).

(** The turns of the loop start at the multiples of the batch size below
    the number of rows. *)
Lemma py_range_positions (len : nat) batch_size :
  0 < batch_size →
  let b := Z.to_nat batch_size in
  ∃ m : nat,
    py_range 0 (Z.of_nat len) batch_size
    = inr ((λ k : nat, Z.of_nat (k * b)) <$> seq 0 m)
    ∧ (∀ k, (k < m)%nat → (k * b < len)%nat)
    ∧ (len <= m * b)%nat.
Proof.
  intros Hb b. unfold py_range, range_len.
  rewrite (proj2 (Z.eqb_neq _ _)), (proj2 (Z.ltb_lt 0 batch_size)) by lia.
  set (m := Z.to_nat
              (if 0 <? Z.of_nat len
               then (Z.of_nat len - 0 + batch_size - 1) `div` batch_size
               else 0)).
  exists m. split_and!.
  - f_equal. apply list_fmap_ext. intros _ k _. lia.
  - intros k Hk. subst m.
    destruct (Z.ltb_spec 0 (Z.of_nat len)) as [Hlen|Hlen]; [|lia].
    pose proof (Z.mul_div_le (Z.of_nat len - 0 + batch_size - 1)
                  batch_size Hb). nia.
  - subst m.
    destruct (Z.ltb_spec 0 (Z.of_nat len)) as [Hlen|Hlen]; [|lia].
    pose proof (Z.mul_succ_div_gt (Z.of_nat len - 0 + batch_size - 1)
                  batch_size Hb).
    pose proof (Z.div_pos (Z.of_nat len - 0 + batch_size - 1)
                  batch_size). nia.
Qed.

Lemma collect_Forall2 {A B} (f : A → result B) l ys :
  Forall2 (λ a y, f a = inr y) l ys → collect l f = inr ys.
Proof.
  induction 1 as [|a y l ys Ha _ IH]; [done|].
  cbn [collect]. by rewrite Ha, IH.
Qed.

Lemma collect_lookup {A B} (f : A → result B) l ys i a :
  collect l f = inr ys → l !! i = Some a →
  ∃ y, f a = inr y ∧ ys !! i = Some y.
Proof.
  revert ys i. induction l as [|a' l IH]; intros ys i; [done|].
  cbn [collect]. destruct (f a') as [e|y'] eqn:Hy'; [done|]. cbn [rbind].
  destruct (collect l f) as [e|ys'] eqn:Hys'; [done|]. cbn [rbind].
  intros [= <-]. destruct i as [|i]; simpl.
  - intros [= <-]. by exists y'.
  - intros Hi. by apply (IH ys' i).
Qed.

(** The windows of a frame whose labels are unique, spelled out. *)
Lemma batch_frames_unique df batch_size :
  NoDup (idx <$> df) → 0 < batch_size →
  let b := Z.to_nat batch_size in
  ∃ m : nat,
    batch_frames df batch_size
    = inr ((λ k : nat, take b (drop (k * b) df)) <$> seq 0 m)
    ∧ (∀ k, (k < m)%nat → (k * b < length df)%nat)
    ∧ (length df <= m * b)%nat.
Proof.
  intros Hnd Hb b.
  destruct (py_range_positions (length df) batch_size Hb)
    as (m & Hrange & Hlt & Hge).
  exists m. split_and!; [|done..].
  unfold batch_frames, df_len. rewrite Hrange. cbn [rbind].
  apply collect_Forall2, Forall2_fmap, Forall2_same_length_lookup_2; [done|].
  intros i k k' Hk Hk'. simplify_eq. simpl.
  apply lookup_seq in Hk as [-> Hk]. simpl.
  subst b. rewrite <- (Z2Nat.id batch_size) at 1 by lia.
  apply batch_window_unique; [done|lia|by apply Hlt].
Qed.

(** Where the occurrences of a label lie, when they are one run. *)
Lemma label_run_bounds l df s e q r :
  label_run l df = inr (s, e) →
  df !! q = Some r → idx r = l →
  (s <= q < e)%nat.
Proof.
  unfold label_run.
  destruct (list_find (λ r', idx r' = l) df) as [[s0 r0]|] eqn:Hfind; [|done].
  case_bool_decide as HF; [|done]. intros [= <- <-] Hq Hr.
  apply list_find_Some in Hfind as (Hs & Hp & Hfirst).
  assert (s0 <= q)%nat as Hsq.
  { destruct (decide (s0 <= q)%nat); [done|]. exfalso.
    apply (Hfirst q r); [done|lia|done]. }
  split; [done|].
  set (n := length (filter (λ r', idx r' = l) df)) in *.
  set (D := drop s0 df) in *.
  assert (filter (λ r', idx r' = l) (take s0 df) = []) as Hbefore.
  { apply filter_none, Forall_forall. intros x Hx Hpx.
    apply list_elem_of_lookup in Hx as [i Hi].
    assert (i < s0)%nat as His.
    { apply lookup_lt_Some in Hi. rewrite length_take in Hi. lia. }
    rewrite lookup_take_lt in Hi by done. by apply (Hfirst i x). }
  assert (n = length (filter (λ r', idx r' = l) D)) as HnD.
  { subst n D. rewrite <- (take_drop s0 df) at 1.
    by rewrite filter_app, Hbefore. }
  assert (n <= length D)%nat as HnD'.
  { rewrite HnD. apply length_filter. }
  assert (filter (λ r', idx r' = l) (drop n D) = []) as Hafter.
  { apply length_zero_iff_nil.
    assert (length (filter (λ r', idx r' = l) D)
            = (length (filter (λ r', idx r' = l) (take n D))
               + length (filter (λ r', idx r' = l) (drop n D)))%nat) as Hsplit.
    { rewrite <- (take_drop n D) at 1. by rewrite filter_app, length_app. }
    rewrite (filter_all _ _ HF), length_take in Hsplit. lia. }
  destruct (decide (q < s0 + n)%nat); [done|]. exfalso.
  assert (r ∈ filter (λ r', idx r' = l) (drop n D)) as Hin.
  { apply list_elem_of_filter. split; [done|].
    apply list_elem_of_lookup. exists (q - (s0 + n))%nat.
    subst D. rewrite drop_drop, lookup_drop. rewrite <- Hq. f_equal. lia. }
  rewrite Hafter in Hin. by apply elem_of_nil in Hin.
Qed.

(** Whatever the labels, a window that could be cut holds the rows at the
    positions of its turn. *)
Lemma batch_window_covers df (b s p : nat) win row :
  (0 < b)%nat →
  batch_window df (Z.of_nat b) (Z.of_nat s) = inr win →
  (s <= p < s + b)%nat →
  df !! p = Some row →
  row ∈ win.
Proof.
  intros Hb Hwin [Hsp Hpb] Hp. unfold batch_window, df_len in Hwin.
  pose proof (lookup_lt_Some _ _ _ Hp) as Hlen.
  destruct (lookup_lt_is_Some_2 df s) as [rs Hrs]; [lia|].
  set (j := Nat.min (length df - 1) (s + b - 1)) in *.
  assert (Z.min (Z.of_nat (length df) - 1) (Z.of_nat s + Z.of_nat b - 1)
          = Z.of_nat j) as Hj by lia.
  rewrite Hj in Hwin.
  destruct (lookup_lt_is_Some_2 df j) as [rj Hrj]; [lia|].
  rewrite (index_at_lookup df s rs Hrs), (index_at_lookup df j rj Hrj) in Hwin.
  cbn [rbind] in Hwin. unfold loc_slice in Hwin.
  destruct (label_run (idx rs) df) as [e|[s1 e1]] eqn:Hlo; [done|].
  destruct (label_run (idx rj) df) as [e|[s2 e2]] eqn:Hhi; [done|].
  cbn [rbind fst snd] in Hwin. injection Hwin as <-.
  pose proof (label_run_bounds _ _ _ _ _ _ Hlo Hrs eq_refl) as [Hs1 _].
  pose proof (label_run_bounds _ _ _ _ _ _ Hhi Hrj eq_refl) as [_ He2].
  apply list_elem_of_lookup. exists (p - s1)%nat.
  rewrite lookup_take_lt by lia. rewrite lookup_drop, <- Hp. f_equal. lia.
Qed.

End window_positions.

(** ** What the batches are made of *)

Section loop_properties.
Context `{C : Components}.

Implicit Types (w : World) (c : TyposCorrector).

(** X3. On a frame with unique index labels and with a positive batch
    size, a call that returns has entered [suggest] with windows that, put
    end to end in the order of the calls, are the frame; none is empty and
    none has more rows than the batch size. *)
Theorem batches_partition_frame test_df n return_all batch_size w d :
  NoDup (idx <$> test_df) →
  0 < batch_size →
  (suggest_by_batches test_df n return_all batch_size w).1 = inr d →
  let frames :=
    suggested_frames
      (new_calls w (suggest_by_batches test_df n return_all batch_size w).2) in
  concat frames = test_df
  ∧ Forall (λ frame, frame ≠ [] ∧ df_len frame ≤ batch_size) frames.
Proof.
  intros Hnd Hb Hd.
  destruct (batches_frames _ _ _ _ _ _ Hd) as (frames & Hframes & ->).
  destruct (batch_frames_unique test_df batch_size Hnd Hb)
    as (m & Hwin & Hlt & Hge).
  cbv zeta in *. rewrite Hwin in Hframes. injection Hframes as <-. split.
  - rewrite concat_windows. by apply take_ge.
  - apply Forall_fmap, Forall_forall. intros k Hk%elem_of_seq. simpl.
    specialize (Hlt k ltac:(lia)). split.
    + intros Hnil. apply (f_equal length) in Hnil.
      rewrite length_take, length_drop in Hnil. simpl in Hnil. lia.
    + unfold df_len. rewrite length_take. lia.
Qed.

(** X4. Whatever the index labels, with a positive batch size a call that
    returns has handed every row of the frame to [suggest] in some
    window. *)
Theorem batches_cover_every_row test_df n return_all batch_size w d :
  0 < batch_size →
  (suggest_by_batches test_df n return_all batch_size w).1 = inr d →
  ∀ row, row ∈ test_df →
    ∃ frame,
      frame ∈ suggested_frames
                (new_calls w
                   (suggest_by_batches test_df n return_all batch_size w).2)
      ∧ row ∈ frame.
Proof.
  intros Hb Hd row Hrow.
  destruct (batches_frames _ _ _ _ _ _ Hd) as (frames & Hframes & ->).
  unfold batch_frames, df_len in Hframes.
  destruct (py_range_positions (length test_df) batch_size Hb)
    as (m & Hrange & Hlt & Hge).
  cbv zeta in *. rewrite Hrange in Hframes. cbn [rbind] in Hframes.
  set (b := Z.to_nat batch_size) in *.
  apply list_elem_of_lookup in Hrow as [p Hp].
  pose proof (lookup_lt_Some _ _ _ Hp) as Hlen.
  assert (0 < b)%nat as Hb' by lia.
  set (k := (p / b)%nat).
  assert (k * b <= p < k * b + b)%nat as Hk.
  { pose proof (Nat.div_mod_eq p b). pose proof (Nat.mod_upper_bound p b).
    subst k. lia. }
  assert (k < m)%nat as Hkm by nia.
  destruct (collect_lookup _ _ _ k (Z.of_nat (k * b)) Hframes)
    as (frame & Hwin & Hframe).
  { rewrite list_lookup_fmap, (proj2 (lookup_seq 0 m k k)); [done|lia]. }
  exists frame. split; [by eapply list_elem_of_lookup_2|].
  apply (batch_window_covers test_df b (k * b) p frame row); [done| |done..].
  subst b. by rewrite Z2Nat.id by lia.
Qed.

Lemma first_seen_snoc l k :
  Spec.first_seen (l ++ [k])
  = if decide (k ∈ l) then Spec.first_seen l else Spec.first_seen l ++ [k].
Proof.
  induction l as [|a l IH]; [done|]. cbn [app Spec.first_seen]. rewrite IH.
  destruct (decide (k ∈ l)) as [Hin|Hin].
  - rewrite decide_True; [done|by right].
  - rewrite filter_app, filter_cons, filter_nil.
    destruct (decide (k = a)) as [->|Hne].
    + rewrite decide_False by (by intros ?).
      rewrite decide_True by (by left). by rewrite app_nil_r.
    + rewrite decide_True by done.
      rewrite decide_False; [done|]. by intros [?|?]%elem_of_cons.
Qed.

(** The keys of a dictionary built from pairs stand in the order in which
    they first occur among the pairs. *)
Lemma assoc_of_items_keys_order {V} (l : list (string * V)) :
  (assoc_of_items l).*1 = Spec.first_seen l.*1.
Proof.
  induction l as [|[k v] l IH] using rev_ind; [done|].
  rewrite assoc_of_items_snoc, assoc_set_keys, IH, fmap_app. csimpl.
  rewrite first_seen_snoc. destruct (decide (k ∈ l.*1)) as [Hin|Hin].
  - rewrite decide_True; [done|]. by apply elem_of_first_seen.
  - rewrite decide_False; [done|]. by rewrite elem_of_first_seen.
Qed.

(** X6. The keys of what [suggest_by_batches] returns stand in the order
    in which the batches first return them: a key that a later batch
    returns again keeps the place it had. *)
Theorem batched_keys_keep_first_place test_df n return_all batch_size w d :
  (suggest_by_batches test_df n return_all batch_size w).1 = inr d →
  ∃ rs,
    batch_results (self w) test_df n return_all batch_size = inr rs
    ∧ keys d = Spec.first_seen (concat (keys <$> rs)).
Proof.
  rewrite suggest_by_batches_fst. unfold suggest_by_batches_out.
  destruct (batch_results _ _ _ _ _) as [e|rs]; [done|]. cbn [rbind].
  intros [= <-]. exists rs. split; [done|].
  unfold keys at 1. cbn [items dict_of_items].
  rewrite assoc_of_items_keys_order. f_equal.
  induction rs as [|r rs IH]; [done|]. csimpl. by rewrite fmap_app, IH.
Qed.

(** Whatever holds of the calls of one [suggest] without table and path
    holds of the calls of the loop. *)
Lemma loop_calls (P : call → Prop) test_df n return_all batch_size starts w :
  (∀ c batch, Forall P (suggest_trace c batch None None n return_all)) →
  let out :=
    for_each starts (batch_turn test_df n return_all batch_size) w in
  ∃ new, calls out.2 = calls w ++ new ∧ Forall P new.
Proof.
  intros HP. simpl. revert w. induction starts as [|i starts IH]; intros w.
  - exists []. by rewrite app_nil_r.
  - rewrite for_each_cons, batch_turn_run.
    destruct (batch_window test_df batch_size i) as [e|batch]; simpl.
    { exists []. by rewrite app_nil_r. }
    destruct (suggest_out (self w) batch None None n return_all)
      as [e|d]; simpl.
    { eexists. split; [done|]. apply HP. }
    match goal with |- context [for_each starts ?b ?w'] =>
      destruct (IH w') as (new & Hcalls & Hnew);
      destruct (for_each starts b w') as [[e|rs] w'']
    end; simpl in *;
      (eexists; rewrite Hcalls, <- app_assoc; split; [done|];
       apply Forall_app; split; [apply HP|done]).
Qed.

Lemma suggest_trace_uncached c batch n return_all :
  Forall uncached (suggest_trace c batch None None n return_all).
Proof.
  unfold suggest_trace. constructor; [done|].
  destruct (sourced c batch None None) as [e|cands]; [constructor|].
  by repeat constructor.
Qed.

(** X12. [suggest_by_batches] works without cache: whether it returns or
    raises, the object and the files are as before, every [suggest] it
    enters is given neither a candidates table nor a path to save one to,
    and no generation is asked to save its table. *)
Theorem batches_use_no_cache test_df n return_all batch_size w :
  let w' := (suggest_by_batches test_df n return_all batch_size w).2 in
  self w' = self w
  ∧ files w' = files w
  ∧ Forall uncached (new_calls w w').
Proof.
  cbv zeta. rewrite suggest_by_batches_run.
  destruct (py_range 0 (df_len test_df) batch_size) as [e|starts].
  { split_and!; try done. by rewrite new_calls_refl. }
  destruct (loop_run test_df n return_all batch_size starts w)
    as (_ & Hself & Hfs & _).
  destruct (loop_calls uncached test_df n return_all batch_size starts w
              (λ c batch, suggest_trace_uncached c batch n return_all))
    as (new & Hcalls & Hnew).
  destruct (for_each starts _ w) as [[e|rs] w']; simpl in *;
    split_and!; try done; by rewrite (new_calls_app _ _ _ Hcalls).
Qed.

End loop_properties.

(** ** Loading, files and sessions *)

Section object_properties.
Context `{C : Components}.

Implicit Types (w : World) (c : TyposCorrector).

(** X7. [_load_tree] assigns as it goes, so a tree that lacks an entry
    leaves the object partly loaded: without "fasttext" nothing has
    changed when [KeyError] is raised; without "finder" the model and the
    generator are already the new ones; without "ranker" the finder is
    too, and only the ranker is the old one. *)
Theorem load_tree_missing_entry tree w :
  (tree !! "fasttext" = None →
   _load_tree tree w = (inl (KeyError "fasttext"), w))
  ∧ (∀ b ft,
       tree !! "fasttext" = Some (TBytes b) →
       pickle_loads b = inr ft →
       let loaded :=
         with_generator (CandidatesGenerator ft (nn_file (self w)))
           (with_fasttext ft (self w)) in
       (tree !! "finder" = None →
        _load_tree tree w
        = (inl (KeyError "finder"),
           MkWorld loaded (files w) (calls w)))
       ∧ (∀ d f,
            tree !! "finder" = Some (TFinder d) →
            finder_load_tree (finder (self w)) (<["fasttext" := FModel ft]> d)
            = inr f →
            tree !! "ranker" = None →
            _load_tree tree w
            = (inl (KeyError "ranker"),
               MkWorld (with_finder f loaded) (files w) (calls w)))).
Proof.
  split.
  - intros Hft. unfold _load_tree, tree_item. rewrite Hft. by run.
  - intros b ft Hb Hft loaded. split.
    + intros Hfinder. unfold _load_tree, tree_item. rewrite Hb. run.
      rewrite Hft. run. rewrite Hfinder. by run.
    + intros d f Hd Hf Hranker. unfold _load_tree, tree_item. rewrite Hb. run.
      rewrite Hft. run. rewrite Hd. run. rewrite Hf. run.
      rewrite Hranker. by run.
Qed.

(** X10. The file entry points read the typos first and the cache next,
    both before anything else: a typos path that holds no file raises
    [FileNotFoundError] for it; when the typos file is there, a cache path
    that holds no file raises it for the cache.  In both cases nothing was
    called and nothing has changed. *)
Theorem missing_files_raise typos_file candidates_file save n return_all w :
  (files w !! typos_file = None →
   suggest_file typos_file candidates_file save n return_all w
   = (inl (FileNotFoundError typos_file), w)
   ∧ train_on_file typos_file candidates_file save w
     = (inl (FileNotFoundError typos_file), w))
  ∧ (∀ path typos,
       files w !! typos_file = Some (CsvFile typos) →
       candidates_file = Some path →
       files w !! path = None →
       suggest_file typos_file candidates_file save n return_all w
       = (inl (FileNotFoundError path), w)
       ∧ train_on_file typos_file candidates_file save w
         = (inl (FileNotFoundError path), w)).
Proof.
  split.
  - intros Hcsv. unfold suggest_file, train_on_file, read_csv.
    unfold mbind, M_bind. by rewrite Hcsv.
  - intros path typos Hcsv -> Hpk.
    unfold suggest_file, train_on_file, read_csv, read_pickle.
    unfold mbind, M_bind. by rewrite Hcsv, Hpk.
Qed.

Lemma paired_load_tree nn threads tree w :
  paired nn threads (self w) →
  paired nn threads (self (_load_tree tree w).2).
Proof.
  intros (Hnn & Hth & Hgen). unfold _load_tree, tree_item.
  destruct (tree !! "fasttext") as [[b| |]|]; run; try done.
  destruct (pickle_loads b) as [e|ft]; run; [done|].
  destruct (tree !! "finder") as [[|d|]|]; run;
    try (by unfold paired; simpl; rewrite Hnn).
  destruct (finder_load_tree _ _) as [e|f]; run;
    try (by unfold paired; simpl; rewrite Hnn).
  destruct (tree !! "ranker") as [[| |t]|]; run;
    try (by unfold paired; simpl; rewrite Hnn).
  destruct (ranker_load_tree _ _) as [e|r]; run;
    by unfold paired; simpl; rewrite Hnn.
Qed.

Lemma paired_train nn threads typos candidates save w :
  paired nn threads (self w) →
  paired nn threads (self (train typos candidates save w).2).
Proof.
  intros Hp. rewrite train_run. cbn [snd self]. unfold train_self.
  destruct (sourced _ _ _ _); [done|].
  by destruct (ranker_fit _ _ _ _).
Qed.

Lemma suggest_file_run typos_file candidates_file save n return_all w :
  suggest_file typos_file candidates_file save n return_all w
  = match files w !! typos_file with
    | None => (inl (FileNotFoundError typos_file), w)
    | Some (PickleFile _) => (inl UnicodeDecodeError, w)
    | Some (CsvFile typos) =>
        match candidates_file with
        | None => suggest typos None save n return_all w
        | Some path =>
            match files w !! path with
            | None => (inl (FileNotFoundError path), w)
            | Some (CsvFile _) => (inl UnpicklingError, w)
            | Some (PickleFile cands) =>
                suggest typos (Some cands) save n return_all w
            end
        end
    end.
Proof.
  unfold suggest_file, read_csv, read_pickle, mbind, M_bind.
  destruct (files w !! typos_file) as [[typos|]|]; [|done..].
  destruct candidates_file as [path|]; [|done].
  by destruct (files w !! path) as [[|]|].
Qed.

Lemma train_on_file_run typos_file candidates_file save w :
  train_on_file typos_file candidates_file save w
  = match files w !! typos_file with
    | None => (inl (FileNotFoundError typos_file), w)
    | Some (PickleFile _) => (inl UnicodeDecodeError, w)
    | Some (CsvFile typos) =>
        match candidates_file with
        | None => train typos None save w
        | Some path =>
            match files w !! path with
            | None => (inl (FileNotFoundError path), w)
            | Some (CsvFile _) => (inl UnpicklingError, w)
            | Some (PickleFile cands) => train typos (Some cands) save w
            end
        end
    end.
Proof.
  unfold train_on_file, read_csv, read_pickle, mbind, M_bind.
  destruct (files w !! typos_file) as [[typos|]|]; [|done..].
  destruct candidates_file as [path|]; [|done].
  by destruct (files w !! path) as [[|]|].
Qed.

Lemma paired_run_op nn threads o w :
  paired nn threads (self w) → paired nn threads (self (run_op o w)).
Proof.
  intros Hp. destruct o; cbn [run_op].
  - done.
  - destruct Hp as (Hnn & Hth & _). unfold create_model. run.
    unfold paired. simpl. by rewrite Hnn.
  - unfold _generate_tree. run. by destruct (fasttext (self w)).
  - by apply paired_load_tree.
  - by apply paired_train.
  - rewrite train_on_file_run.
    destruct (files w !! typos_file) as [[typos|]|]; [|done..].
    destruct candidates_file as [path|]; [|by apply paired_train].
    destruct (files w !! path) as [[|]|]; [done|by apply paired_train|done].
  - by rewrite suggest_self.
  - rewrite suggest_file_run.
    destruct (files w !! typos_file) as [[typos|]|]; [|done..].
    destruct candidates_file as [path|]; [|by rewrite suggest_self].
    destruct (files w !! path) as [[|]|]; [done|by rewrite suggest_self|done].
  - by destruct (suggest_by_batches_frame test_df n_candidates return_all
                   batch_size w) as (-> & _).
Qed.

(** X8. Through any session that starts at the constructor, whatever the
    calls and whether they return or raise, [nn_file] and [threads_number]
    stay what the constructor was given, and the object has a generator
    exactly when it has a model: the one built from that model and
    [nn_file]. *)
Theorem session_keeps_settings threads nn fs os :
  let w := run_ops os (MkWorld (__init__ threads nn) fs []) in
  nn_file (self w) = nn
  ∧ threads_number (self w) = threads
  ∧ generator (self w)
    = (λ ft, CandidatesGenerator ft nn) <$> fasttext (self w).
Proof.
  cbv zeta. change (paired nn threads
    (self (run_ops os (MkWorld (__init__ threads nn) fs [])))).
  induction os as [|o os IH] using rev_ind; [done|].
  unfold run_ops in *. rewrite foldl_app. cbn [foldl].
  by apply paired_run_op.
Qed.

End object_properties.

(** ** A frame whose rows all carry the same label *)

Section constant_label.
Context `{C : Components}.

Implicit Types (w : World) (df : DataFrame).

Lemma collect_inv {A B} (f : A → result B) l ys :
  collect l f = inr ys → Forall2 (λ a y, f a = inr y) l ys.
Proof.
  revert ys. induction l as [|a l IH]; intros ys.
  - intros [= <-]. constructor.
  - cbn [collect]. destruct (f a) as [e|y] eqn:Hy; [done|]. cbn [rbind].
    destruct (collect l f) as [e|ys'] eqn:Hys'; [done|]. cbn [rbind].
    intros [= <-]. constructor; [done|]. by apply IH.
Qed.

(** One label for all the rows stands for the whole frame. *)
Lemma label_run_constant l df :
  df ≠ [] → Forall (λ r, idx r = l) df →
  label_run l df = inr (0%nat, length df).
Proof.
  intros Hne Hall. unfold label_run.
  destruct df as [|r df]; [done|].
  apply Forall_cons in Hall as [Hr Hall'].
  cbn [list_find]. rewrite decide_True by done. cbn [drop].
  rewrite (filter_all _ (r :: df)) by (by constructor).
  rewrite take_ge by done.
  by rewrite bool_decide_true by (by constructor).
Qed.

Lemma batch_window_constant l df (b k : nat) :
  (0 < b)%nat → Forall (λ r, idx r = l) df → (k < length df)%nat →
  batch_window df (Z.of_nat b) (Z.of_nat k) = inr df.
Proof.
  intros Hb Hall Hk. unfold batch_window, df_len.
  assert (df ≠ []) as Hne by (intros ->; simpl in Hk; lia).
  destruct (lookup_lt_is_Some_2 df k Hk) as [rk Hrk].
  set (j := Nat.min (length df - 1) (k + b - 1)).
  assert (Z.min (Z.of_nat (length df) - 1) (Z.of_nat k + Z.of_nat b - 1)
          = Z.of_nat j) as -> by lia.
  destruct (lookup_lt_is_Some_2 df j) as [rj Hrj]; [lia|].
  rewrite (index_at_lookup df k rk Hrk), (index_at_lookup df j rj Hrj).
  cbn [rbind]. unfold loc_slice.
  rewrite (Forall_lookup_1 _ _ _ _ Hall Hrk).
  rewrite (Forall_lookup_1 _ _ _ _ Hall Hrj).
  rewrite (label_run_constant l df Hne Hall). cbn [rbind fst snd drop].
  by rewrite Nat.sub_0_r, take_ge.
Qed.

(** X13. When all the rows carry the same index label, the label slice of
    every turn is the whole frame: a call that returns has entered
    [suggest] with the full frame each time, once per turn of the loop. *)
Theorem batches_of_constant_label l test_df n return_all batch_size w d :
  0 < batch_size →
  Forall (λ r, idx r = l) test_df →
  (suggest_by_batches test_df n return_all batch_size w).1 = inr d →
  let frames :=
    suggested_frames
      (new_calls w (suggest_by_batches test_df n return_all batch_size w).2) in
  Forall (λ frame, frame = test_df) frames
  ∧ ∃ starts,
      py_range 0 (df_len test_df) batch_size = inr starts
      ∧ length frames = length starts.
Proof.
  intros Hb Hall Hd.
  destruct (batches_frames _ _ _ _ _ _ Hd) as (frames & Hframes & ->).
  cbv zeta. unfold batch_frames, df_len in *.
  destruct (py_range_positions (length test_df) batch_size Hb)
    as (m & Hrange & Hlt & _).
  cbv zeta in *. rewrite Hrange in *. cbn [rbind] in Hframes.
  apply collect_inv in Hframes.
  split; [|eexists; split; [done|]; symmetry; by eapply Forall2_length].
  apply Forall_forall. intros frame Hframe.
  apply list_elem_of_lookup in Hframe as [i Hi].
  destruct (Forall2_lookup_r _ _ _ _ _ Hframes Hi) as (a & Ha & Hwin).
  apply list_lookup_fmap_Some in Ha as (k & -> & Hk).
  apply lookup_seq in Hk as [-> Hk]. simpl in Hwin.
  rewrite <- (Z2Nat.id batch_size) in Hwin at 1 by lia.
  rewrite (batch_window_constant l test_df) in Hwin;
    [by injection Hwin|lia|done|by apply Hlt].
Qed.

End constant_label.

(** ** The corrector at work on concrete records *)

Module Runs.

Import Scenario.

(** The scenario of the specification: "lenght" is corrected to "length",
    with a score above one half. *)
Example lenght_is_corrected :
  rmap (λ d, head <$> dict_get "lenght" d) (suggest_defaults sample ready).1
  = inr (Some (Some ("length", 2 # 3)%Q)).
Proof. vm_compute. reflexivity. Qed.

(** The ranker of a corrector fresh from the constructor holds the default
    hyperparameters. *)
Example fresh_ranker_holds_defaults :
  rs_rounds (ranker fresh) = 4000
  ∧ rs_stop (ranker fresh) = 200
  ∧ rs_params (ranker fresh) !! "max_depth" = Some (PInt 6)
  ∧ rs_params (ranker fresh) !! "eta" = Some (PFloat 0.03%Q).
Proof. split_and!; reflexivity. Qed.

(** Candidates saved by one call serve as the cache of the next: the
    second call generates nothing and returns the same suggestions. *)
Example saved_candidates_are_reused :
  let typos_on_disk :=
    MkWorld trained_corrector {["typos.csv" := CsvFile sample]} [] in
  let first := suggest sample None (Some "cache.pkl") (Some 3%nat) true
                 typos_on_disk in
  let second := suggest_file "typos.csv" (Some "cache.pkl") None
                  (Some 3%nat) true first.2 in
  rmap items second.1 = rmap items first.1
  ∧ filter (λ k, is_generate k = true) (new_calls first.2 second.2) = [].
Proof. split; vm_compute; reflexivity. Qed.

(** The typos file named as the cache too: it is there, but it is no
    pickle. *)
Example typos_file_is_no_cache :
  suggest_file "typos.csv" (Some "typos.csv") None (Some 3%nat) true
    ready_with_file
  = (inl UnpicklingError, ready_with_file).
Proof. reflexivity. Qed.

(** Candidates saved over the typos file: the next call finds no CSV
    there. *)
Example cache_saved_over_typos_file :
  (suggest_file "typos.csv" None None (Some 3%nat) true
     (suggest sample None (Some "typos.csv") (Some 3%nat) true
        ready_with_file).2).1
  = inl UnicodeDecodeError.
Proof. vm_compute. reflexivity. Qed.

(** Labels that repeat out of one run make the label slice fail. *)
Example repeated_labels_raise :
  (suggest_by_batches [row 0 "lenght"; row 1 "widht"; row 0 "width"]
     (Some 3%nat) true 1 ready).1
  = inl (KeyError "non-unique label").
Proof. vm_compute. reflexivity. Qed.

(** A typo that repeats: ranked once over the whole frame its candidates
    are pooled, ranked by batches the last batch decides. *)
Example repeated_typos_differ :
  rmap (dict_get "lenght")
    (suggest [row 0 "lenght"; row 1 "widht"; row 2 "lenght"] None None
       (Some 3%nat) true ready).1
  = inr (Some [("length", 2 # 3); ("length", 2 # 3); ("eight", 8 # 15)]%Q)
  ∧ rmap (dict_get "lenght")
      (suggest_by_batches [row 0 "lenght"; row 1 "widht"; row 2 "lenght"]
         (Some 3%nat) true 2 ready).1
    = inr (Some [("length", 2 # 3); ("eight", 8 # 15); ("lengths", 1 # 2)]%Q).
Proof. split; vm_compute; reflexivity. Qed.

(** A batch size of zero is refused by [range]; a negative one gives an
    empty loop. *)
Example batch_size_zero :
  (suggest_by_batches sample (Some 3%nat) true 0 ready).1 = inl ValueError.
Proof. vm_compute. reflexivity. Qed.

Example batch_size_negative :
  rmap items (suggest_by_batches sample (Some 3%nat) true (-1) ready).1
  = inr [].
Proof. vm_compute. reflexivity. Qed.

(** The calls of a batched run with the defaults: every [suggest] and
    every [rank] is given [None]. *)
Example batched_calls_receive_None :
  omap (λ k, match k with
             | CallSuggest _ _ _ n _ => Some n
             | CallRank _ _ n _ => Some n
             | _ => None
             end)
    (calls (suggest_by_batches_defaults sample 2 ready).2)
  = [None; None; None; None].
Proof. vm_compute. reflexivity. Qed.

(** C1, a counterexample.  Called with their defaults on one record, the
    batched entry point returns four suggestions for "lenght" and the
    plain one three. *)
Lemma batches_differ_with_defaults :
  rmap (λ d, length <$> dict_get "lenght" d)
    (suggest_by_batches_defaults [row 0 "lenght"] batch_size_default ready).1
  = inr (Some 4%nat)
  ∧ rmap (λ d, length <$> dict_get "lenght" d)
      (suggest_defaults [row 0 "lenght"] ready).1
    = inr (Some 3%nat)
  ∧ (suggest_by_batches_defaults [row 0 "lenght"] batch_size_default ready).1
    ≠ (suggest_defaults [row 0 "lenght"] ready).1.
Proof.
  split_and!; [vm_compute; reflexivity..|].
  intros Heq.
  apply (f_equal (rmap (λ d, length <$> dict_get "lenght" d))) in Heq.
  vm_compute in Heq. discriminate.
Qed.

(** C1, amended: four records with distinct labels and typos, in batches
    of two. *)
Lemma batches_agree_witness :
  self ready = trained_corrector
  ∧ generator trained_corrector = Some the_generator
  ∧ trained (ranker trained_corrector) = true
  ∧ NoDup (idx <$> sample)
  ∧ NoDup (typo <$> sample)
  ∧ 0 < 2
  ∧ (suggest_by_batches sample (Some 3%nat) true 2 ready).1
    = (suggest sample None None (Some 3%nat) true ready).1.
Proof.
  assert (NoDup (idx <$> sample)) as Hidx
    by (apply (bool_decide_unpack _); vm_compute; exact I).
  assert (NoDup (typo <$> sample)) as Htypo
    by (apply (bool_decide_unpack _); vm_compute; exact I).
  split_and!; [reflexivity..|exact Hidx|exact Htypo|reflexivity|].
  apply (batches_agree_on_distinct_typos trained_corrector the_generator
           sample None (Some 3%nat) true 2 ready);
    [reflexivity..|exact Hidx|exact Htypo|reflexivity].
Defined.



(** C3, a counterexample: on a corrector fresh from the constructor the
    call fails with [AttributeError], not with [ModelNotTrainedError]. *)
Lemma fresh_suggest_raises_AttributeError :
  (suggest_defaults sample (world_of fresh)).1
  = inl (AttributeError "generator")
  ∧ (suggest_defaults sample (world_of fresh)).1 ≠ inl ModelNotTrainedError.
Proof. split; [reflexivity|discriminate]. Qed.

(** C3, amended: the fresh corrector, and the built one, which has a
    generator and an untrained ranker. *)
Lemma suggest_before_training_witness :
  never_trained built
  ∧ self (world_of built) = built
  ∧ (is_Some (None : option (list cand_row)) ∨ is_Some (generator built))
  ∧ suggest sample None None (Some 3%nat) true
      (world_of (__init__ DEFAULT_THREADS_NUMBER None))
    = (inl (AttributeError "generator"),
       traced (world_of (__init__ DEFAULT_THREADS_NUMBER None))
         [CallSuggest sample None None (Some 3%nat) true])
  ∧ (suggest sample None None (Some 3%nat) true (world_of built)).1
    = inl ModelNotTrainedError.
Proof.
  assert (never_trained built) as Hnt by (apply nt_create_model, nt_init).
  assert (is_Some (None : option (list cand_row)) ∨ is_Some (generator built))
    as Hreach by (right; eexists; reflexivity).
  destruct (suggest_before_training DEFAULT_THREADS_NUMBER None built sample
              None None (Some 3%nat) true (world_of built)) as [Hfresh Hrank].
  split_and!; [exact Hnt|reflexivity|exact Hreach|exact Hfresh|].
  exact (Hrank Hnt eq_refl Hreach).
Defined.

(** C4: with the built corrector, whose generator exists. *)
Lemma precomputed_candidates_witness :
  generator (self (world_of built)) = Some the_generator
  ∧ new_calls ready (suggest sample (Some []) None (Some 3%nat) true ready).2
    = [ CallSuggest sample (Some []) None (Some 3%nat) true;
        CallGetTokens []; CallGetFeatures [];
        CallRank [] [] (Some 3%nat) true ]
  ∧ ∃ cands,
      cands = generate_candidates the_generator sample (finder built) 16 None
      ∧ new_calls (world_of built) (train sample None None (world_of built)).2
        = [ CallGenerate sample 16 None;
            CallGetTokens cands; CallGetFeatures cands;
            CallFit sample (get_candidates_tokens cands)
              (get_candidates_features cands) ].
Proof.
  destruct (precomputed_candidates_skip_generation sample None (Some 3%nat)
              true (world_of built)) as (_ & _ & Hgen).
  split_and!; [reflexivity..|].
  eexists. split; [reflexivity|].
  exact (proj2 (Hgen the_generator eq_refl)).
Defined.

(** C5, a counterexample: a typo without candidates is no key of the
    result, whatever the entry point. *)
Lemma typo_without_candidates_is_omitted :
  "zzzzzzzzzzzz" ∈ typo <$> sample
  ∧ rmap (dict_get "zzzzzzzzzzzz") (suggest_defaults sample ready).1
    = inr None
  ∧ rmap (dict_get "zzzzzzzzzzzz")
      (suggest_by_batches_defaults sample 2 ready).1
    = inr None
  ∧ rmap keys (suggest sample None None (Some 3%nat) false ready).1
    = inr ["lenght"; "widht"].
Proof.
  split_and!; [|vm_compute; reflexivity..].
  apply (bool_decide_unpack _). vm_compute. exact I.
Qed.

(** C5, amended: the four records with [return_all=False], at once and in
    batches of two.  "width" is a word of the vocabulary, its top candidate
    is itself, and it is no key; "zzzzzzzzzzzz" has no candidate. *)
Lemma suggestions_cover_witness :
  self ready = trained_corrector
  ∧ generator trained_corrector = Some the_generator
  ∧ trained (ranker trained_corrector) = true
  ∧ NoDup (idx <$> sample)
  ∧ 0 < 2
  ∧ (∃ d ranked,
       (suggest sample None None (Some 3%nat) false ready).1 = inr d
       ∧ (suggest sample None None None true ready).1 = inr ranked
       ∧ keys ranked = ["lenght"; "widht"; "width"]
       ∧ top_candidate ranked "width" = Some "width"
       ∧ keys d = ["lenght"; "widht"]
       ∧ (∀ k, k ∈ keys ranked
               ↔ ∃ r, r ∈ sample ∧ typo r = k
                      ∧ typo_candidates the_generator
                          (finder trained_corrector) r ≠ [])
       ∧ (∀ k, k ∈ keys d
               ↔ (∃ r, r ∈ sample ∧ typo r = k
                       ∧ typo_candidates the_generator
                           (finder trained_corrector) r ≠ [])
                 ∧ (false = true ∨ top_candidate ranked k ≠ Some k)))
  ∧ (∃ d chunks,
       (suggest_by_batches sample (Some 3%nat) false 2 ready).1 = inr d
       ∧ batch_frames sample 2 = inr chunks
       ∧ concat chunks = sample
       ∧ (∀ k, k ∈ keys d
               ↔ ∃ chunk dc,
                   chunk ∈ chunks
                   ∧ (suggest chunk None None (Some 3%nat) false ready).1
                     = inr dc
                   ∧ k ∈ keys dc)
       ∧ (∀ k, k ∈ keys d →
             ∃ r, r ∈ sample ∧ typo r = k
                  ∧ typo_candidates the_generator
                      (finder trained_corrector) r ≠ [])
       ∧ (false = true →
          ∀ k,
            (∃ r, r ∈ sample ∧ typo r = k
                  ∧ typo_candidates the_generator
                      (finder trained_corrector) r ≠ []) →
            k ∈ keys d)).
Proof.
  assert (NoDup (idx <$> sample)) as Hidx
    by (apply (bool_decide_unpack _); vm_compute; exact I).
  assert (trained (ranker trained_corrector) = true) as Ht by reflexivity.
  destruct (suggestions_cover_typos_with_candidates trained_corrector
              the_generator sample None (Some 3%nat) false 2 ready
              eq_refl eq_refl Ht) as [Hsuggest Hbatches].
  split_and!; [reflexivity..|exact Hidx|reflexivity| |].
  - destruct Hsuggest as (d & ranked & Hd & Hranked & Hcover & Hkeys).
    exists d, ranked.
    assert (inr ranked = (suggest sample None None None true ready).1)
      as Hr by (by rewrite Hranked).
    assert (inr d = (suggest sample None None (Some 3%nat) false ready).1)
      as Hd' by (by rewrite Hd).
    split_and!; [exact Hd|exact Hranked| | | |exact Hcover|exact Hkeys].
    + revert Hr. vm_compute. by intros [= ->].
    + revert Hr. vm_compute. by intros [= ->].
    + revert Hd'. vm_compute. by intros [= ->].
  - exact (Hbatches Hidx eq_refl).
Defined.

(** C10: three records with the same typo in two batches. *)
Lemma later_batch_overwrites_witness :
  ∃ d,
    (suggest_by_batches [row 0 "lenght"; row 1 "lenght"; row 2 "lenght"]
       (Some 3%nat) true 2 ready).1 = inr d
    ∧ ∃ rs,
        batch_results (self ready)
          [row 0 "lenght"; row 1 "lenght"; row 2 "lenght"] (Some 3%nat) true 2
        = inr rs
        ∧ d = dict_of_items (concat (items <$> rs))
        ∧ ∀ k i r,
            rs !! i = Some r →
            k ∈ keys r →
            (∀ j r', (i < j)%nat → rs !! j = Some r' → k ∉ keys r') →
            dict_get k d = dict_get k r.
Proof.
  assert (∃ d,
            (suggest_by_batches
               [row 0 "lenght"; row 1 "lenght"; row 2 "lenght"]
               (Some 3%nat) true 2 ready).1 = inr d) as [d Hd]
    by (eexists; vm_compute; reflexivity).
  exists d. split; [exact Hd|].
  exact (later_batch_overwrites _ _ _ _ _ _ Hd).
Defined.

(** The two batches of that run disagree on "lenght", and the result holds
    what the second one returned. *)
Example second_batch_wins :
  rmap (fmap (dict_get "lenght"))
    (batch_results (self ready)
       [row 0 "lenght"; row 1 "lenght"; row 2 "lenght"] (Some 3%nat) true 2)
  = inr [ Some [("length", 2 # 3); ("length", 2 # 3); ("eight", 8 # 15)]%Q;
          Some [("length", 2 # 3); ("eight", 8 # 15); ("lengths", 1 # 2)]%Q ]
  ∧ rmap (dict_get "lenght")
      (suggest_by_batches [row 0 "lenght"; row 1 "lenght"; row 2 "lenght"]
         (Some 3%nat) true 2 ready).1
    = inr (Some [("length", 2 # 3); ("eight", 8 # 15); ("lengths", 1 # 2)]%Q).
Proof. split; vm_compute; reflexivity. Qed.

(** C9: the trained corrector on the four records, in batches of two and
    at once. *)
Lemma default_n_candidates_witness :
  generator (self ready) = Some the_generator
  ∧ batch_window sample 2 0 = inr (take 2 sample)
  ∧ ∃ generated,
      generated
      = (λ df, generate_candidates the_generator df (finder (self ready))
                 (threads_number (self ready)) None)
      ∧ new_calls ready (suggest_defaults sample ready).2
        = [ CallSuggest sample None None (Some 3%nat) true;
            CallGenerate sample (threads_number (self ready)) None;
            CallGetTokens (generated sample);
            CallGetFeatures (generated sample);
            CallRank (get_candidates_tokens (generated sample))
              (get_candidates_features (generated sample)) (Some 3%nat)
              true ]
      ∧ ∃ rest,
          new_calls ready (suggest_by_batches_defaults sample 2 ready).2
          = [ CallSuggest (take 2 sample) None None None true;
              CallGenerate (take 2 sample) (threads_number (self ready)) None;
              CallGetTokens (generated (take 2 sample));
              CallGetFeatures (generated (take 2 sample));
              CallRank (get_candidates_tokens (generated (take 2 sample)))
                (get_candidates_features (generated (take 2 sample))) None
                true ] ++ rest.
Proof.
  assert (batch_window sample 2 0 = inr (take 2 sample)) as Hbatch
    by reflexivity.
  split_and!; [reflexivity|exact Hbatch|].
  eexists. split; [reflexivity|].
  destruct (proj2 (proj2 (proj2 (proj2
              (default_n_candidates_differ sample sample 2 ready))))
              the_generator eq_refl) as (Hsuggest & _ & Hfirst & _).
  split; [exact Hsuggest|].
  exact (Hfirst (take 2 sample) eq_refl Hbatch).
Defined.

End Runs.

(** ** More runs *)

Module MoreRuns.

Import Scenario.

(** X1: on a corrector fresh from the constructor. *)
Lemma batches_of_empty_frame_witness :
  2048 ≠ 0
  ∧ suggest_by_batches [] None true 2048 (world_of fresh)
    = (inr (dict_of_items []), world_of fresh).
Proof.
  assert (2048 ≠ 0) as Hb by discriminate.
  split; [exact Hb|].
  exact (batches_of_empty_frame None true 2048 (world_of fresh) Hb).
Defined.

(** X2: a negative batch size on four records. *)
Lemma batches_with_nonpositive_size_witness :
  -1 ≤ 0
  ∧ suggest_by_batches sample (Some 3%nat) true (-1) ready
    = (inr (dict_of_items []), ready).
Proof.
  assert (-1 ≤ 0) as Hb by discriminate.
  split; [exact Hb|].
  exact (batches_with_nonpositive_size sample (Some 3%nat) true (-1) ready Hb).
Defined.

(** X3: four records with unique labels in batches of three. *)
Lemma batches_partition_frame_witness :
  NoDup (idx <$> sample)
  ∧ 0 < 3
  ∧ ∃ d,
      (suggest_by_batches sample (Some 3%nat) true 3 ready).1 = inr d
      ∧ concat (suggested_frames
                  (new_calls ready
                     (suggest_by_batches sample (Some 3%nat) true 3 ready).2))
        = sample
      ∧ Forall (λ frame, frame ≠ [] ∧ df_len frame ≤ 3)
          (suggested_frames
             (new_calls ready
                (suggest_by_batches sample (Some 3%nat) true 3 ready).2)).
Proof.
  assert (NoDup (idx <$> sample)) as Hidx
    by (apply (bool_decide_unpack _); vm_compute; exact I).
  assert (∃ d, (suggest_by_batches sample (Some 3%nat) true 3 ready).1
               = inr d) as [d Hd]
    by (eexists; vm_compute; reflexivity).
  split_and!; [exact Hidx|reflexivity|].
  exists d. split; [exact Hd|].
  exact (batches_partition_frame sample (Some 3%nat) true 3 ready d Hidx
           eq_refl Hd).
Defined.

(** X4: labels that repeat in one run. *)
Lemma batches_cover_every_row_witness :
  0 < 1
  ∧ ∃ d,
      (suggest_by_batches run_rows (Some 3%nat) true 1 ready).1 = inr d
      ∧ ∀ r, r ∈ run_rows →
          ∃ frame,
            frame ∈ suggested_frames
                      (new_calls ready
                         (suggest_by_batches run_rows (Some 3%nat) true 1
                            ready).2)
            ∧ r ∈ frame.
Proof.
  assert (∃ d, (suggest_by_batches run_rows (Some 3%nat) true 1 ready).1
               = inr d) as [d Hd]
    by (eexists; vm_compute; reflexivity).
  split; [reflexivity|]. exists d. split; [exact Hd|].
  exact (batches_cover_every_row run_rows (Some 3%nat) true 1 ready d
           eq_refl Hd).
Defined.

(** The windows of that run overlap: the first two turns both take the
    two rows labelled 0. *)
Example run_rows_windows :
  (λ frame : list df_row, typo <$> frame)
    <$> (suggested_frames
       (calls (suggest_by_batches run_rows (Some 3%nat) true 1 ready).2))
  = [ ["lenght"; "widht"]; ["lenght"; "widht"]; ["width"] ].
Proof. vm_compute. reflexivity. Qed.


(** X6: four records in batches of three. *)
Lemma batched_keys_keep_first_place_witness :
  ∃ d,
    (suggest_by_batches sample (Some 3%nat) true 3 ready).1 = inr d
    ∧ ∃ rs,
        batch_results (self ready) sample (Some 3%nat) true 3 = inr rs
        ∧ keys d = Spec.first_seen (concat (keys <$> rs)).
Proof.
  assert (∃ d, (suggest_by_batches sample (Some 3%nat) true 3 ready).1
               = inr d) as [d Hd]
    by (eexists; vm_compute; reflexivity).
  exists d. split; [exact Hd|].
  exact (batched_keys_keep_first_place sample (Some 3%nat) true 3 ready d Hd).
Defined.

(** X7: a tree with the model only, loaded into a fresh corrector. *)
Lemma load_tree_missing_entry_witness :
  bare_tree !! "fasttext" = Some (TBytes (BModel (embedding_on_disk "emb.bin")))
  ∧ pickle_loads (BModel (embedding_on_disk "emb.bin"))
    = inr (embedding_on_disk "emb.bin")
  ∧ bare_tree !! "finder" = None
  ∧ _load_tree bare_tree (world_of fresh)
    = (inl (KeyError "finder"),
       MkWorld
         (with_generator
            (CandidatesGenerator (embedding_on_disk "emb.bin") None)
            (with_fasttext (embedding_on_disk "emb.bin") fresh))
         ∅ []).
Proof.
  assert (bare_tree !! "fasttext"
          = Some (TBytes (BModel (embedding_on_disk "emb.bin")))) as Hft
    by reflexivity.
  assert (bare_tree !! "finder" = None) as Hfinder by reflexivity.
  split_and!; [exact Hft|reflexivity|exact Hfinder|].
  exact (proj1 (proj2 (load_tree_missing_entry bare_tree (world_of fresh))
                  _ _ Hft eq_refl) Hfinder).
Defined.

(** X10: no file at all, then the typos only. *)
Lemma missing_files_raise_witness :
  files ready !! "typos.csv" = None
  ∧ suggest_file "typos.csv" None None (Some 3%nat) true ready
    = (inl (FileNotFoundError "typos.csv"), ready)
  ∧ files ready_with_file !! "typos.csv" = Some (CsvFile sample)
  ∧ files ready_with_file !! "cache.pkl" = None
  ∧ train_on_file "typos.csv" (Some "cache.pkl") None ready_with_file
    = (inl (FileNotFoundError "cache.pkl"), ready_with_file).
Proof.
  assert (files ready !! "typos.csv" = None) as Hnone by reflexivity.
  assert (files ready_with_file !! "typos.csv" = Some (CsvFile sample))
    as Hsome by reflexivity.
  assert (files ready_with_file !! "cache.pkl" = None) as Hpk
    by reflexivity.
  split_and!; [exact Hnone| |exact Hsome|exact Hpk|].
  - exact (proj1 (proj1 (missing_files_raise "typos.csv" None None
                           (Some 3%nat) true ready) Hnone)).
  - exact (proj2 (proj2 (missing_files_raise "typos.csv" (Some "cache.pkl")
                           None (Some 3%nat) true ready_with_file)
                    "cache.pkl" sample Hsome eq_refl Hpk)).
Defined.


(** X13: three records under the label 7, in batches of two. *)
Lemma batches_of_constant_label_witness :
  0 < 2
  ∧ Forall (λ r, idx r = 7) constant_rows
  ∧ ∃ d,
      (suggest_by_batches constant_rows (Some 3%nat) true 2 ready).1 = inr d
      ∧ Forall (λ frame, frame = constant_rows)
          (suggested_frames
             (new_calls ready
                (suggest_by_batches constant_rows (Some 3%nat) true 2
                   ready).2))
      ∧ ∃ starts,
          py_range 0 (df_len constant_rows) 2 = inr starts
          ∧ length (suggested_frames
                      (new_calls ready
                         (suggest_by_batches constant_rows (Some 3%nat) true
                            2 ready).2))
            = length starts.
Proof.
  assert (Forall (λ r, idx r = 7) constant_rows) as Hall
    by (repeat constructor).
  assert (∃ d, (suggest_by_batches constant_rows (Some 3%nat) true 2 ready).1
               = inr d) as [d Hd]
    by (eexists; vm_compute; reflexivity).
  split_and!; [reflexivity|exact Hall|].
  exists d. split; [exact Hd|].
  exact (batches_of_constant_label 7 constant_rows (Some 3%nat) true 2 ready d
           eq_refl Hall Hd).
Defined.

End MoreRuns.
